(** * homeassistant/util/unit_system.py: unit-system helper class and methods

    A shallow embedding of the module and the properties its specification
    states.  Python strings are byte strings (UTF-8), sets are [gset string],
    the dictionary returned by [as_dict] is a [gmap string string], objects
    carry their identity, and the two external effects of the module (the
    deprecation report and the calls to the unit converters) are recorded in
    a trace that is threaded through a small state-and-exception monad. *)

From Stdlib Require Import Floats Ascii.
From stdpp Require Import gmap strings list pretty.

Local Open Scope string_scope.

(** ** Python values and the built-ins the module uses *)

Module Py.

(** The values a caller can hand to a conversion method. [PyOther] is an
    instance of any class outside the numeric tower, observed through the
    text [str()] gives for it. *)
Inductive value :=
| PyNone
| PyBool (b : bool)
| PyInt (n : Z)
| PyFloat (f : float)
| PyStr (s : string)
| PyOther (str_result : string).

Inductive cls := c_NoneType | c_bool | c_int | c_float | c_str | c_other.

Definition type_of (v : value) : cls :=
  match v with
  | PyNone => c_NoneType
  | PyBool _ => c_bool
  | PyInt _ => c_int
  | PyFloat _ => c_float
  | PyStr _ => c_str
  | PyOther _ => c_other
  end.

(** The method resolution order of a class, [object] left out:
    [bool] derives from [int]. *)
Definition mro (c : cls) : list cls :=
  match c with
  | c_bool => [c_bool; c_int]
  | _ => [c]
  end.

Definition cls_eqb (c d : cls) : bool :=
  match c, d with
  | c_NoneType, c_NoneType | c_bool, c_bool | c_int, c_int
  | c_float, c_float | c_str, c_str | c_other, c_other => true
  | _, _ => false
  end.

(** [numbers.Number]: an abstract base class; of the classes above, [int]
    and [float] are registered with it (as [Integral] and [Real]). *)
Definition Number_registry : list cls := [c_int; c_float].

(** [isinstance(v, Number)]: some class of the value's MRO is registered. *)
Definition isinstance_Number (v : value) : bool :=
  existsb (fun c => existsb (cls_eqb c) Number_registry) (mro (type_of v)).

(** [sep.join(parts)] *)
Fixpoint join (sep : string) (parts : list string) : string :=
  match parts with
  | [] => ""
  | [p] => p
  | p :: rest => p +:+ sep +:+ join sep rest
  end.

(** [str.lower] on one byte: the letters A to Z are mapped to a to z.  Bytes
    from 128 on belong to the UTF-8 encoding of a code point outside ASCII
    and are left as they are. *)
Definition lower_ascii (c : ascii) : ascii :=
  let n := N_of_ascii c in
  if ((65 <=? n) && (n <=? 90))%N then ascii_of_N (n + 32) else c.

Fixpoint lower (s : string) : string :=
  match s with
  | EmptyString => EmptyString
  | String c rest => String (lower_ascii c) (lower rest)
  end.

(** Truth value of a string: [if errors:]. *)
Definition truthy (s : string) : bool :=
  match s with EmptyString => false | _ => true end.

(** [needle in haystack] for strings, as a proposition: the text occurs. *)
Definition occurs_in (needle haystack : string) : Prop :=
  exists before after, haystack = before +:+ needle +:+ after.

End Py.

Import Py.

(** ** Exceptions, the world and the monad of the module's effects *)

Inductive exn :=
| ValueError (msg : string)
| TypeError (msg : string)
| HomeAssistantError (msg : string)
| Invalid (msg : string).

Inductive Converter :=
| DistanceConverter
| PressureConverter
| SpeedConverter
| TemperatureConverter
| VolumeConverter.

(** What the module does to the outside: a call of [report], or a call of
    some converter's [convert]. *)
Inductive event :=
| Report (what : string) (error_if_core : bool)
| Convert (c : Converter) (value_ : value) (from_unit to_unit : string).

Record World := mkWorld {
  next_id : nat;          (* identity of the next object to be created *)
  trace : list event      (* the calls made so far, oldest first *)
}.

Definition M (A : Type) : Type := World -> (exn + A) * World.

Definition ret {A} (a : A) : M A := fun w => (inr a, w).

Definition raise {A} (e : exn) : M A := fun w => (inl e, w).

Definition bind {A B} (m : M A) (k : A -> M B) : M B :=
  fun w =>
    match m w with
    | (inl e, w') => (inl e, w')
    | (inr a, w') => k a w'
    end.

Definition emit (e : event) : M unit :=
  fun w => (inr tt, mkWorld (next_id w) (trace w ++ [e])).

Definition lift {A} (r : exn + A) : M A := fun w => (r, w).

Declare Scope py_scope.
Delimit Scope py_scope with py.
Notation "x <- m ;; k" := (bind m (fun x => k))
  (at level 100, m at next level, right associativity) : py_scope.
Notation "m ;;; k" := (bind m (fun _ => k))
  (at level 100, right associativity) : py_scope.
Local Open Scope py_scope.

(** [template.format(args...)] for a template whose only replacement fields
    are the automatically numbered [{}]. A field with no argument left
    raises [IndexError] in Python; the module never does that, and the model
    then copies the field. *)
Fixpoint format (template : string) (args : list string) : string :=
  match template with
  | EmptyString => EmptyString
  | String "{"%char (String "}"%char rest) =>
      match args with
      | a :: args' => a +:+ format rest args'
      | [] => String "{"%char (String "}"%char (format rest []))
      end
  | String c rest => String c (format rest args)
  end.

(** ** Constants of homeassistant.const *)

(** Modelled from the spec: the seven category names of homeassistant.const,
    which is not among the sources; the spec's export mapping names them
    length, accumulated_precipitation, mass, pressure, temperature, volume
    and wind_speed. *)
Definition LENGTH : string := "length".
Definition ACCUMULATED_PRECIPITATION : string := "accumulated_precipitation".
Definition MASS : string := "mass".
Definition PRESSURE : string := "pressure".
Definition TEMPERATURE : string := "temperature".
Definition VOLUME : string := "volume".
Definition WIND_SPEED : string := "wind_speed".

(** Modelled from the spec: the error template of homeassistant.const, which
    the spec renders as: unit '<unit>' is not a recognized <category> unit. *)
Definition UNIT_NOT_RECOGNIZED_TEMPLATE : string :=
  "unit '{}' is not a recognized {} unit".

(** Modelled from the spec: the unit constants of homeassistant.const that the
    two predefined systems are built from, in the symbol forms of the unit
    enumerations below (metric: Celsius, kilometers, meters per second,
    liters, grams, pascals, millimeters; US customary: Fahrenheit, miles,
    miles per hour, gallons, pounds, psi, inches). *)
Definition TEMP_CELSIUS : string := "°C".
Definition TEMP_FAHRENHEIT : string := "°F".
Definition LENGTH_KILOMETERS : string := "km".
Definition LENGTH_MILES : string := "mi".
Definition LENGTH_MILLIMETERS : string := "mm".
Definition LENGTH_INCHES : string := "in".
Definition SPEED_METERS_PER_SECOND : string := "m/s".
Definition SPEED_MILES_PER_HOUR : string := "mph".
Definition VOLUME_LITERS : string := "L".
Definition VOLUME_GALLONS : string := "gal".
Definition MASS_GRAMS : string := "g".
Definition MASS_POUNDS : string := "lb".
Definition PRESSURE_PA : string := "Pa".
Definition PRESSURE_PSI : string := "psi".

(** ** The module's own constants and unit enumerations *)

Definition _CONF_UNIT_SYSTEM_IMPERIAL : string := "imperial".
Definition _CONF_UNIT_SYSTEM_METRIC : string := "metric".
Definition _CONF_UNIT_SYSTEM_US_CUSTOMARY : string := "us_customary".

(** A [StrEnum] is its members, in definition order, and the value of each. *)
Class StrEnum (E : Type) := {
  enum_value : E -> string;
  enum_members : list E
}.

(** [{unit.value for unit in E}] *)
Definition enum_values (E : Type) `{StrEnum E} : gset string :=
  list_to_set (enum_value <$> enum_members).

Inductive PrecipitationUnit := PrecipitationUnit_INCHES | PrecipitationUnit_MILLIMETERS.

#[export] Instance PrecipitationUnit_enum : StrEnum PrecipitationUnit := {
  enum_value u :=
    match u with
    | PrecipitationUnit_INCHES => "in"
    | PrecipitationUnit_MILLIMETERS => "mm"
    end;
  enum_members := [PrecipitationUnit_INCHES; PrecipitationUnit_MILLIMETERS]
}.

Inductive LengthUnit :=
| LengthUnit_MILLIMETERS | LengthUnit_CENTIMETERS | LengthUnit_METERS
| LengthUnit_KILOMETERS | LengthUnit_INCHES | LengthUnit_FEET
| LengthUnit_YARD | LengthUnit_MILES.

#[export] Instance LengthUnit_enum : StrEnum LengthUnit := {
  enum_value u :=
    match u with
    | LengthUnit_MILLIMETERS => "mm"
    | LengthUnit_CENTIMETERS => "cm"
    | LengthUnit_METERS => "m"
    | LengthUnit_KILOMETERS => "km"
    | LengthUnit_INCHES => "in"
    | LengthUnit_FEET => "ft"
    | LengthUnit_YARD => "yd"
    | LengthUnit_MILES => "mi"
    end;
  enum_members :=
    [LengthUnit_MILLIMETERS; LengthUnit_CENTIMETERS; LengthUnit_METERS;
     LengthUnit_KILOMETERS; LengthUnit_INCHES; LengthUnit_FEET;
     LengthUnit_YARD; LengthUnit_MILES]
}.

Inductive MassUnit :=
| MassUnit_GRAMS | MassUnit_KILOGRAMS | MassUnit_MILLIGRAMS
| MassUnit_MICROGRAMS | MassUnit_OUNCES | MassUnit_POUNDS.

#[export] Instance MassUnit_enum : StrEnum MassUnit := {
  enum_value u :=
    match u with
    | MassUnit_GRAMS => "g"
    | MassUnit_KILOGRAMS => "kg"
    | MassUnit_MILLIGRAMS => "mg"
    | MassUnit_MICROGRAMS => "µg"
    | MassUnit_OUNCES => "oz"
    | MassUnit_POUNDS => "lb"
    end;
  enum_members :=
    [MassUnit_GRAMS; MassUnit_KILOGRAMS; MassUnit_MILLIGRAMS;
     MassUnit_MICROGRAMS; MassUnit_OUNCES; MassUnit_POUNDS]
}.

Inductive PressureUnit :=
| PressureUnit_PA | PressureUnit_HPA | PressureUnit_KPA | PressureUnit_BAR
| PressureUnit_CBAR | PressureUnit_MBAR | PressureUnit_MMHG
| PressureUnit_INHG | PressureUnit_PSI.

#[export] Instance PressureUnit_enum : StrEnum PressureUnit := {
  enum_value u :=
    match u with
    | PressureUnit_PA => "Pa"
    | PressureUnit_HPA => "hPa"
    | PressureUnit_KPA => "kPa"
    | PressureUnit_BAR => "bar"
    | PressureUnit_CBAR => "cbar"
    | PressureUnit_MBAR => "mbar"
    | PressureUnit_MMHG => "mmHg"
    | PressureUnit_INHG => "inHg"
    | PressureUnit_PSI => "psi"
    end;
  enum_members :=
    [PressureUnit_PA; PressureUnit_HPA; PressureUnit_KPA; PressureUnit_BAR;
     PressureUnit_CBAR; PressureUnit_MBAR; PressureUnit_MMHG;
     PressureUnit_INHG; PressureUnit_PSI]
}.

Inductive VolumeUnit :=
| VolumeUnit_LITERS | VolumeUnit_MILLILITERS | VolumeUnit_CUBIC_METERS
| VolumeUnit_CUBIC_FEET | VolumeUnit_GALLONS | VolumeUnit_FLUID_OUNCE.

#[export] Instance VolumeUnit_enum : StrEnum VolumeUnit := {
  enum_value u :=
    match u with
    | VolumeUnit_LITERS => "L"
    | VolumeUnit_MILLILITERS => "mL"
    | VolumeUnit_CUBIC_METERS => "m³"
    | VolumeUnit_CUBIC_FEET => "ft³"
    | VolumeUnit_GALLONS => "gal"
    | VolumeUnit_FLUID_OUNCE => "fl. oz."
    end;
  enum_members :=
    [VolumeUnit_LITERS; VolumeUnit_MILLILITERS; VolumeUnit_CUBIC_METERS;
     VolumeUnit_CUBIC_FEET; VolumeUnit_GALLONS; VolumeUnit_FLUID_OUNCE]
}.

Inductive SpeedUnit :=
| SpeedUnit_FEET_PER_SECOND | SpeedUnit_METERS_PER_SECOND
| SpeedUnit_KILOMETERS_PER_HOUR | SpeedUnit_KNOTS | SpeedUnit_MILES_PER_HOUR.

#[export] Instance SpeedUnit_enum : StrEnum SpeedUnit := {
  enum_value u :=
    match u with
    | SpeedUnit_FEET_PER_SECOND => "ft/s"
    | SpeedUnit_METERS_PER_SECOND => "m/s"
    | SpeedUnit_KILOMETERS_PER_HOUR => "km/h"
    | SpeedUnit_KNOTS => "kn"
    | SpeedUnit_MILES_PER_HOUR => "mph"
    end;
  enum_members :=
    [SpeedUnit_FEET_PER_SECOND; SpeedUnit_METERS_PER_SECOND;
     SpeedUnit_KILOMETERS_PER_HOUR; SpeedUnit_KNOTS; SpeedUnit_MILES_PER_HOUR]
}.

Inductive TemperatureUnit :=
| TemperatureUnit_CELSIUS | TemperatureUnit_FAHRENHEIT | TemperatureUnit_KELVIN.

#[export] Instance TemperatureUnit_enum : StrEnum TemperatureUnit := {
  enum_value u :=
    match u with
    | TemperatureUnit_CELSIUS => "°C"
    | TemperatureUnit_FAHRENHEIT => "°F"
    | TemperatureUnit_KELVIN => "K"
    end;
  enum_members :=
    [TemperatureUnit_CELSIUS; TemperatureUnit_FAHRENHEIT; TemperatureUnit_KELVIN]
}.

Definition LENGTH_UNITS : gset string := enum_values LengthUnit.
Definition MASS_UNITS : gset string := enum_values MassUnit.
Definition PRESSURE_UNITS : gset string := enum_values PressureUnit.
Definition VOLUME_UNITS : gset string := enum_values VolumeUnit.
Definition WIND_SPEED_UNITS : gset string := enum_values SpeedUnit.
Definition TEMPERATURE_UNITS : gset string := enum_values TemperatureUnit.

(** Check if the unit is valid for its type. *)
Definition _is_valid_unit (unit unit_type : string) : bool :=
  if String.eqb unit_type LENGTH then bool_decide (unit ∈ LENGTH_UNITS)
  else if String.eqb unit_type ACCUMULATED_PRECIPITATION then bool_decide (unit ∈ LENGTH_UNITS)
  else if String.eqb unit_type WIND_SPEED then bool_decide (unit ∈ WIND_SPEED_UNITS)
  else if String.eqb unit_type TEMPERATURE then bool_decide (unit ∈ TEMPERATURE_UNITS)
  else if String.eqb unit_type MASS then bool_decide (unit ∈ MASS_UNITS)
  else if String.eqb unit_type VOLUME then bool_decide (unit ∈ VOLUME_UNITS)
  else if String.eqb unit_type PRESSURE then bool_decide (unit ∈ PRESSURE_UNITS)
  else false.

(** ** class UnitSystem *)

(** A container for units of measure. [oid] is the identity of the object,
    which is what Python's [is] compares. *)
Record UnitSystem := mkUnitSystem {
  oid : nat;
  _name : string;
  accumulated_precipitation_unit : string;
  temperature_unit : string;
  length_unit : string;
  mass_unit : string;
  pressure_unit : string;
  volume_unit : string;
  wind_speed_unit : string
}.

(** [a is b] *)
Definition is_ (a b : UnitSystem) : bool := Nat.eqb (oid a) (oid b).

(** The (unit, unit_type) pairs [__init__] checks, in the order of its tuple. *)
Definition init_pairs
    (temperature length wind_speed volume mass pressure accumulated_precipitation : string)
    : list (string * string) :=
  [ (accumulated_precipitation, ACCUMULATED_PRECIPITATION);
    (temperature, TEMPERATURE);
    (length, LENGTH);
    (wind_speed, WIND_SPEED);
    (volume, VOLUME);
    (mass, MASS);
    (pressure, PRESSURE) ].

(** The text of [errors] in [__init__]. *)
Definition init_errors
    (temperature length wind_speed volume mass pressure accumulated_precipitation : string)
    : string :=
  join ", "
    (map (fun p => format UNIT_NOT_RECOGNIZED_TEMPLATE [p.1; p.2])
       (List.filter (fun p => negb (_is_valid_unit p.1 p.2))
          (init_pairs temperature length wind_speed volume mass pressure
             accumulated_precipitation))).

(** Initialize the unit system object whose identity is [self]. *)
Definition UnitSystem___init__ (self : nat)
    (name temperature length wind_speed volume mass pressure
       accumulated_precipitation : string) : exn + UnitSystem :=
  let errors :=
    init_errors temperature length wind_speed volume mass pressure
      accumulated_precipitation in
  if truthy errors then inl (ValueError errors)
  else inr {| oid := self;
              _name := name;
              accumulated_precipitation_unit := accumulated_precipitation;
              temperature_unit := temperature;
              length_unit := length;
              mass_unit := mass;
              pressure_unit := pressure;
              volume_unit := volume;
              wind_speed_unit := wind_speed |}.

(** The call [UnitSystem(...)]: a new object is initialized; when [__init__]
    raises, the caller gets the exception and no object. *)
Definition UnitSystem_new
    (name temperature length wind_speed volume mass pressure
       accumulated_precipitation : string) : M UnitSystem :=
  fun w =>
    match UnitSystem___init__ (next_id w) name temperature length wind_speed
            volume mass pressure accumulated_precipitation with
    | inl e => (inl e, w)
    | inr self => (inr self, mkWorld (S (next_id w)) (trace w))
    end.

(** The names the module binds at its end. *)
Record Globals := mkGlobals {
  METRIC_SYSTEM : UnitSystem;
  US_CUSTOMARY_SYSTEM : UnitSystem;
  IMPERIAL_SYSTEM : UnitSystem
}.

(** The statements at the end of the module, run once when it is imported. *)
Definition import_module : M Globals :=
  metric <- UnitSystem_new _CONF_UNIT_SYSTEM_METRIC TEMP_CELSIUS
              LENGTH_KILOMETERS SPEED_METERS_PER_SECOND VOLUME_LITERS
              MASS_GRAMS PRESSURE_PA LENGTH_MILLIMETERS ;;
  us_customary <- UnitSystem_new _CONF_UNIT_SYSTEM_US_CUSTOMARY TEMP_FAHRENHEIT
              LENGTH_MILES SPEED_MILES_PER_HOUR VOLUME_GALLONS
              MASS_POUNDS PRESSURE_PSI LENGTH_INCHES ;;
  ret {| METRIC_SYSTEM := metric;
         US_CUSTOMARY_SYSTEM := us_customary;
         IMPERIAL_SYSTEM := us_customary |}.

Definition initial_world : World := mkWorld 0 [].

(** [homeassistant.helpers.frame.report]: fire and forget. *)
Definition report (what : string) (error_if_core : bool) : M unit :=
  emit (Report what error_if_core).

Definition name_notice : string :=
  "accesses the `name` property of the unit system. " +:+
  "This is deprecated and will stop working in Home Assistant 2023.1. " +:+
  "Please adjust to use instance check instead.".

Definition is_metric_notice : string :=
  "accesses the `is_metric` property of the unit system. " +:+
  "This is deprecated and will stop working in Home Assistant 2023.1. " +:+
  "Please adjust to use instance check instead.".

(** Return the name of the unit system. *)
Definition UnitSystem_name (g : Globals) (self : UnitSystem) : M string :=
  report name_notice false ;;;
  if is_ self (IMPERIAL_SYSTEM g) then ret _CONF_UNIT_SYSTEM_IMPERIAL
  else ret (_name self).

(** Determine if this is the metric unit system. *)
Definition UnitSystem_is_metric (g : Globals) (self : UnitSystem) : M bool :=
  report is_metric_notice false ;;;
  ret (is_ self (METRIC_SYSTEM g)).

(** Convert the unit system to a dictionary. *)
Definition UnitSystem_as_dict (self : UnitSystem) : gmap string string :=
  <[WIND_SPEED := wind_speed_unit self]>
  (<[VOLUME := volume_unit self]>
  (<[TEMPERATURE := temperature_unit self]>
  (<[PRESSURE := pressure_unit self]>
  (<[MASS := mass_unit self]>
  (<[ACCUMULATED_PRECIPITATION := accumulated_precipitation_unit self]>
  (<[LENGTH := length_unit self]> ∅)))))).

(** Get unit system based on key. *)
Definition get_unit_system (g : Globals) (key : string) : M UnitSystem :=
  if String.eqb key _CONF_UNIT_SYSTEM_US_CUSTOMARY then ret (US_CUSTOMARY_SYSTEM g)
  else if String.eqb key _CONF_UNIT_SYSTEM_METRIC then ret (METRIC_SYSTEM g)
  else raise (ValueError ("`" +:+ key +:+ "` is not a valid unit system key")).

(** Convert deprecated unit system. *)
Definition _deprecated_unit_system (value_ : string) : string :=
  if String.eqb value_ _CONF_UNIT_SYSTEM_IMPERIAL then _CONF_UNIT_SYSTEM_US_CUSTOMARY
  else value_.

(** ** The validators of voluptuous that the module composes *)

(** [vol.Lower]: the value, lower-cased. *)
Definition vol_Lower (v : string) : exn + string := inr (lower v).

(** [vol.Any] over literal schemas: the value itself when it equals one of the
    literals, an [Invalid] error otherwise. *)
Definition vol_Any (literals : list string) (v : string) : exn + string :=
  if existsb (String.eqb v) literals then inr v
  else inl (Invalid "not a valid value").

(** [vol.All]: each validator is given the result of the one
    before it; the first error ends the chain. *)
Fixpoint vol_All (validators : list (string -> exn + string)) (v : string)
    : exn + string :=
  match validators with
  | [] => inr v
  | f :: rest =>
      match f v with
      | inl e => inl e
      | inr v' => vol_All rest v'
      end
  end.

Definition validate_unit_system : string -> exn + string :=
  vol_All
    [ vol_Lower;
      (fun v => inr (_deprecated_unit_system v));
      vol_Any [_CONF_UNIT_SYSTEM_METRIC; _CONF_UNIT_SYSTEM_US_CUSTOMARY] ].

(** ** The conversion methods, over the external converters *)

Section Conversion.

(** [C.convert(value, from_unit, to_unit)] of homeassistant.util.unit_conversion:
    what converter [C] answers, a value or an exception. *)
Variable convert : Converter -> value -> string -> string -> exn + value.

(** [str(f)] for a float. *)
Variable float_str : float -> string.

(** [str(v)], as the f-string conversion [!s] calls it. *)
Definition str (v : value) : string :=
  match v with
  | PyNone => "None"
  | PyBool true => "True"
  | PyBool false => "False"
  | PyInt n => pretty n
  | PyFloat f => float_str f
  | PyStr s => s
  | PyOther s => s
  end.

(** A call of [c.convert]: the call is made, then its answer is passed on. *)
Definition call_convert (c : Converter) (v : value) (from_unit to_unit : string)
    : M value :=
  emit (Convert c v from_unit to_unit) ;;;
  lift (convert c v from_unit to_unit).

(** Convert the given temperature to this unit system. *)
Definition UnitSystem_temperature (self : UnitSystem) (temperature : value)
    (from_unit : string) : M value :=
  if negb (isinstance_Number temperature)
  then raise (TypeError (str temperature +:+ " is not a numeric value."))
  else call_convert TemperatureConverter temperature from_unit
         (temperature_unit self).

(** Convert the given length to this unit system. *)
Definition UnitSystem_length (self : UnitSystem) (length : value)
    (from_unit : string) : M value :=
  if negb (isinstance_Number length)
  then raise (TypeError (str length +:+ " is not a numeric value."))
  else call_convert DistanceConverter length from_unit (length_unit self).

(** Convert the given length to this unit system. *)
Definition UnitSystem_accumulated_precipitation (self : UnitSystem)
    (precip : value) (from_unit : string) : M value :=
  if negb (isinstance_Number precip)
  then raise (TypeError (str precip +:+ " is not a numeric value."))
  else call_convert DistanceConverter precip from_unit
         (accumulated_precipitation_unit self).

(** Convert the given pressure to this unit system. *)
Definition UnitSystem_pressure (self : UnitSystem) (pressure : value)
    (from_unit : string) : M value :=
  if negb (isinstance_Number pressure)
  then raise (TypeError (str pressure +:+ " is not a numeric value."))
  else call_convert PressureConverter pressure from_unit (pressure_unit self).

(** Convert the given wind_speed to this unit system. *)
Definition UnitSystem_wind_speed (self : UnitSystem) (wind_speed : value)
    (from_unit : string) : M value :=
  if negb (isinstance_Number wind_speed)
  then raise (TypeError (str wind_speed +:+ " is not a numeric value."))
  else call_convert SpeedConverter wind_speed from_unit (wind_speed_unit self).

(** Convert the given volume to this unit system. *)
Definition UnitSystem_volume (self : UnitSystem) (volume : value)
    (from_unit : string) : M value :=
  if negb (isinstance_Number volume)
  then raise (TypeError (str volume +:+ " is not a numeric value."))
  else call_convert VolumeConverter volume from_unit (volume_unit self).

End Conversion.

(** ** Vocabulary of the specification *)

(** The seven stored units of a bundle belong to their categories. *)
Definition valid_bundle (self : UnitSystem) : Prop :=
  _is_valid_unit (accumulated_precipitation_unit self) ACCUMULATED_PRECIPITATION = true
  /\ _is_valid_unit (temperature_unit self) TEMPERATURE = true
  /\ _is_valid_unit (length_unit self) LENGTH = true
  /\ _is_valid_unit (wind_speed_unit self) WIND_SPEED = true
  /\ _is_valid_unit (volume_unit self) VOLUME = true
  /\ _is_valid_unit (mass_unit self) MASS = true
  /\ _is_valid_unit (pressure_unit self) PRESSURE = true.

(** Every one of the seven units supplied to the constructor belongs to its
    category's valid set. *)
Definition units_valid
    (temperature length wind_speed volume mass pressure accumulated_precipitation : string)
    : Prop :=
  _is_valid_unit temperature TEMPERATURE = true
  /\ _is_valid_unit length LENGTH = true
  /\ _is_valid_unit wind_speed WIND_SPEED = true
  /\ _is_valid_unit volume VOLUME = true
  /\ _is_valid_unit mass MASS = true
  /\ _is_valid_unit pressure PRESSURE = true
  /\ _is_valid_unit accumulated_precipitation ACCUMULATED_PRECIPITATION = true.

(** The entry of one (unit, category) pair in the list of errors: nothing for
    a valid pair, its rendering for an invalid one. *)
Definition error_of (unit unit_type : string) : list string :=
  if _is_valid_unit unit unit_type then []
  else [format UNIT_NOT_RECOGNIZED_TEMPLATE [unit; unit_type]].

(** The errors in one fixed category order: accumulated precipitation,
    temperature, length, wind speed, volume, mass, pressure. *)
Definition errors_in_category_order
    (temperature length wind_speed volume mass pressure accumulated_precipitation : string)
    : list string :=
  error_of accumulated_precipitation ACCUMULATED_PRECIPITATION
  ++ error_of temperature TEMPERATURE
  ++ error_of length LENGTH
  ++ error_of wind_speed WIND_SPEED
  ++ error_of volume VOLUME
  ++ error_of mass MASS
  ++ error_of pressure PRESSURE.

(** The six conversion methods of a bundle. *)
Inductive ConversionMethod :=
| m_temperature
| m_length
| m_accumulated_precipitation
| m_pressure
| m_wind_speed
| m_volume.

Definition conversion_methods : list ConversionMethod :=
  [m_temperature; m_length; m_accumulated_precipitation; m_pressure;
   m_wind_speed; m_volume].

(** The method of that name, as the class defines it. *)
Definition invoke (convert : Converter -> value -> string -> string -> exn + value)
    (float_str : float -> string) (m : ConversionMethod)
    : UnitSystem -> value -> string -> M value :=
  match m with
  | m_temperature => UnitSystem_temperature convert float_str
  | m_length => UnitSystem_length convert float_str
  | m_accumulated_precipitation =>
      UnitSystem_accumulated_precipitation convert float_str
  | m_pressure => UnitSystem_pressure convert float_str
  | m_wind_speed => UnitSystem_wind_speed convert float_str
  | m_volume => UnitSystem_volume convert float_str
  end.

(** The bundle's configured unit for the category of a method. *)
Definition configured_unit (m : ConversionMethod) (self : UnitSystem) : string :=
  match m with
  | m_temperature => temperature_unit self
  | m_length => length_unit self
  | m_accumulated_precipitation => accumulated_precipitation_unit self
  | m_pressure => pressure_unit self
  | m_wind_speed => wind_speed_unit self
  | m_volume => volume_unit self
  end.

(** The converter behind each method; accumulated precipitation has none of
    its own and goes to the distance converter. *)
Definition converter_of (m : ConversionMethod) : Converter :=
  match m with
  | m_temperature => TemperatureConverter
  | m_length => DistanceConverter
  | m_accumulated_precipitation => DistanceConverter
  | m_pressure => PressureConverter
  | m_wind_speed => SpeedConverter
  | m_volume => VolumeConverter
  end.

(** The world after one more event. *)
Definition after (w : World) (e : event) : World :=
  mkWorld (next_id w) (trace w ++ [e]).

(** The calls of converters in a trace. *)
Definition converter_calls (tr : list event) : list event :=
  List.filter (fun e => match e with Convert _ _ _ _ => true | _ => false end) tr.

(** The deprecation notices in a trace. *)
Definition notices (tr : list event) : list event :=
  List.filter (fun e => match e with Report _ _ => true | _ => false end) tr.

(** The bundle with another unit for length, everything else kept. *)
Definition with_length_unit (self : UnitSystem) (u : string) : UnitSystem :=
  {| oid := oid self;
     _name := _name self;
     accumulated_precipitation_unit := accumulated_precipitation_unit self;
     temperature_unit := temperature_unit self;
     length_unit := u;
     mass_unit := mass_unit self;
     pressure_unit := pressure_unit self;
     volume_unit := volume_unit self;
     wind_speed_unit := wind_speed_unit self |}.

(** The mapping the spec gives for the metric bundle. *)
Definition metric_mapping : gmap string string :=
  list_to_map
    [ ("length", "km");
      ("accumulated_precipitation", "mm");
      ("mass", "g");
      ("pressure", "Pa");
      ("temperature", "°C");
      ("volume", "L");
      ("wind_speed", "m/s") ].

(** The seven category keys. *)
Definition category_keys : gset string :=
  {[ LENGTH; ACCUMULATED_PRECIPITATION; MASS; PRESSURE; TEMPERATURE; VOLUME;
     WIND_SPEED ]}.

(** The accumulated-precipitation method as the specification words it:
    check that the value is numeric, then hand it to the generic distance
    converter with the bundle's accumulated-precipitation unit as target. *)
Definition accumulated_precipitation_by_delegation
    (convert : Converter -> value -> string -> string -> exn + value)
    (float_str : float -> string)
    (self : UnitSystem) (precip : value) (from_unit : string) : M value :=
  if isinstance_Number precip
  then fun w =>
         (convert DistanceConverter precip from_unit
            (accumulated_precipitation_unit self),
          after w (Convert DistanceConverter precip from_unit
                     (accumulated_precipitation_unit self)))
  else raise (TypeError (str float_str precip +:+ " is not a numeric value.")).

(** The globals of the module when it is imported in the initial world. *)
Definition imported : Globals :=
  {| METRIC_SYSTEM :=
       mkUnitSystem 0 "metric" "mm" "°C" "km" "g" "Pa" "L" "m/s";
     US_CUSTOMARY_SYSTEM :=
       mkUnitSystem 1 "us_customary" "in" "°F" "mi" "lb" "psi" "gal" "mph";
     IMPERIAL_SYSTEM :=
       mkUnitSystem 1 "us_customary" "in" "°F" "mi" "lb" "psi" "gal" "mph" |}.

(** Two keys that differ in letter case only. *)
Definition same_ignoring_case (s t : string) : Prop := lower s = lower t.

(** The categories [_is_valid_unit] knows, in the order it tests them. *)
Definition categories : list string :=
  [LENGTH; ACCUMULATED_PRECIPITATION; WIND_SPEED; TEMPERATURE; MASS; VOLUME;
   PRESSURE].

(** The units of a category, written out; none for any other text. *)
Definition valid_units (unit_type : string) : list string :=
  if String.eqb unit_type LENGTH
  then ["mm"; "cm"; "m"; "km"; "in"; "ft"; "yd"; "mi"]
  else if String.eqb unit_type ACCUMULATED_PRECIPITATION
  then ["mm"; "cm"; "m"; "km"; "in"; "ft"; "yd"; "mi"]
  else if String.eqb unit_type WIND_SPEED
  then ["ft/s"; "m/s"; "km/h"; "kn"; "mph"]
  else if String.eqb unit_type TEMPERATURE
  then ["°C"; "°F"; "K"]
  else if String.eqb unit_type MASS
  then ["g"; "kg"; "mg"; "µg"; "oz"; "lb"]
  else if String.eqb unit_type VOLUME
  then ["L"; "mL"; "m³"; "ft³"; "gal"; "fl. oz."]
  else if String.eqb unit_type PRESSURE
  then ["Pa"; "hPa"; "kPa"; "bar"; "cbar"; "mbar"; "mmHg"; "inHg"; "psi"]
  else [].

(** The entry of a dictionary under a key, the empty text when there is
    none. *)
Definition entry (d : gmap string string) (key : string) : string :=
  default "" (d !! key).

(** ** homeassistant/components/ovo_energy/config_flow.py *)

(** A value held by a mapping or an attribute of the flow: [None] or a text. *)
Abbreviation pyval := (option string).

Definition truthy_val (v : pyval) : bool :=
  match v with
  | Some s => truthy s
  | None => false
  end.

(** [mapping.get(key)]: [None] for a missing key. *)
Definition mapping_get (mapping : gmap string pyval) (key : string) : pyval :=
  match mapping !! key with
  | Some v => v
  | None => None
  end.

(** The exceptions a step can meet. [ClientError] stands for
    [aiohttp.ClientError] and its subclasses. *)
Inductive flow_exception :=
| ClientError (detail : string)
| KeyError (key : string)
| AbortFlow (reason : string)
| OtherError (detail : string).

(** [except aiohttp.ClientError] *)
Definition is_ClientError (e : flow_exception) : bool :=
  match e with
  | ClientError _ => true
  | _ => false
  end.

(** A [vol.Schema] of required keys, each holding a [str]. *)
Definition Schema : Type := list string.

Inductive ConfigEntry := Entry (entry_id : nat).

(** What a step returns: the call of [async_show_form], [async_create_entry]
    or [async_abort] that makes the result, with its keyword arguments. *)
Inductive FlowResult :=
| async_show_form (step_id : string) (data_schema : Schema)
    (errors : gmap string string)
| async_create_entry (title : pyval) (data : gmap string pyval)
| async_abort (reason : string).

(** The calls a step makes to its collaborators. *)
Inductive flow_call :=
| NewClient
| Authenticate (username_ password : pyval)
| SetUniqueId (unique_id : pyval)
| AbortIfUniqueIdConfigured
| UpdateEntry (entry_ : option ConfigEntry) (data : gmap string pyval).

(** The flow handler: its attribute [username], the entry
    [title_placeholders] of its [context], and the calls made so far. *)
Record FlowState := mkFlowState {
  username : pyval;
  title_placeholders : option (gmap string pyval);
  calls : list flow_call
}.

(** [OVOEnergyFlowHandler.__init__] *)
Definition OVOEnergyFlowHandler___init__ : FlowState :=
  {| username := None; title_placeholders := None; calls := [] |}.

Definition F (A : Type) : Type := FlowState -> (flow_exception + A) * FlowState.

Definition F_ret {A} (a : A) : F A := fun s => (inr a, s).

Definition F_raise {A} (e : flow_exception) : F A := fun s => (inl e, s).

Definition F_bind {A B} (m : F A) (k : A -> F B) : F B :=
  fun s =>
    match m s with
    | (inl e, s') => (inl e, s')
    | (inr a, s') => k a s'
    end.

Definition F_call (c : flow_call) : F unit :=
  fun s => (inr tt, mkFlowState (username s) (title_placeholders s) (calls s ++ [c])).

Definition F_lift {A} (r : flow_exception + A) : F A := fun s => (r, s).

(** [try: body / except E: handler / else: orelse]: an exception of the body
    that the clause catches runs the handler; any other one goes on to the
    caller, as does every exception of the handler and of the else branch. *)
Definition try_except_else {A B} (body : F A) (catches : flow_exception -> bool)
    (handler : F B) (orelse : A -> F B) : F B :=
  fun s =>
    match body s with
    | (inl e, s') => if catches e then handler s' else (inl e, s')
    | (inr a, s') => orelse a s'
    end.

Declare Scope flow_scope.
Delimit Scope flow_scope with flow.
Notation "x <~ m ;; k" := (F_bind m (fun x => k))
  (at level 100, m at next level, right associativity) : flow_scope.
Notation "m ;;~ k" := (F_bind m (fun _ => k))
  (at level 100, right associativity) : flow_scope.

(** [mapping[key]] *)
Definition subscript (mapping : gmap string pyval) (key : string) : F pyval :=
  match mapping !! key with
  | Some v => F_ret v
  | None => F_raise (KeyError key)
  end.

(** The collaborators of the flow: the two keys of homeassistant.const, the
    OVO Energy client, and the methods of the flow handler's base class and
    of the config entries that the steps call. *)
Record Collaborators := mkCollaborators {
  CONF_USERNAME : string;
  CONF_PASSWORD : string;
  (** [await client.authenticate(username, password)] *)
  authenticate : pyval -> pyval -> flow_exception + bool;
  (** [client.username] after that call *)
  client_username : pyval -> pyval -> pyval;
  (** [await self.async_set_unique_id(unique_id)] *)
  set_unique_id : pyval -> flow_exception + option ConfigEntry;
  (** [self._abort_if_unique_id_configured()], the unique id being the one
      set before; [None] when it returns. *)
  abort_if_unique_id_configured : pyval -> option flow_exception;
  (** [self.hass.config_entries.async_update_entry(entry, data=data)];
      [None] when it returns. *)
  update_entry : option ConfigEntry -> gmap string pyval -> option flow_exception
}.

Section ConfigFlow.

Variable env : Collaborators.

Local Open Scope flow_scope.

Definition REAUTH_SCHEMA : Schema := [CONF_PASSWORD env].

Definition USER_SCHEMA : Schema := [CONF_USERNAME env; CONF_PASSWORD env].

(** The dictionary display [{CONF_USERNAME: u, CONF_PASSWORD: p}]. *)
Definition credentials (u p : pyval) : gmap string pyval :=
  <[CONF_PASSWORD env := p]> (<[CONF_USERNAME env := u]> ∅).

Definition may_raise (r : option flow_exception) : F unit :=
  match r with
  | Some e => F_raise e
  | None => F_ret tt
  end.

(** Handle a flow initiated by the user. *)
Definition async_step_user (user_input : option (gmap string pyval))
    : F FlowResult :=
  let errors : gmap string string := ∅ in
  match user_input with
  | Some user_input =>
      F_call NewClient ;;~
      try_except_else
        (u <~ subscript user_input (CONF_USERNAME env) ;;
         p <~ subscript user_input (CONF_PASSWORD env) ;;
         F_call (Authenticate u p) ;;~
         F_lift (authenticate env u p))
        is_ClientError
        (let errors := <["base" := "cannot_connect"]> errors in
         F_ret (async_show_form "user" USER_SCHEMA errors))
        (fun authenticated : bool =>
           if authenticated then
             uid <~ subscript user_input (CONF_USERNAME env) ;;
             F_call (SetUniqueId uid) ;;~
             _ <~ F_lift (set_unique_id env uid) ;;
             F_call AbortIfUniqueIdConfigured ;;~
             may_raise (abort_if_unique_id_configured env uid) ;;~
             u <~ subscript user_input (CONF_USERNAME env) ;;
             p <~ subscript user_input (CONF_PASSWORD env) ;;
             F_ret (async_create_entry (client_username env u p) (credentials u p))
           else
             let errors := <["base" := "invalid_auth"]> errors in
             F_ret (async_show_form "user" USER_SCHEMA errors))
  | None => F_ret (async_show_form "user" USER_SCHEMA errors)
  end.

(** [if entry_data and entry_data.get(CONF_USERNAME)] *)
Definition has_username (entry_data : option (gmap string pyval)) : bool :=
  match entry_data with
  | Some d => negb (bool_decide (d = ∅)) && truthy_val (mapping_get d (CONF_USERNAME env))
  | None => false
  end.

(** [if entry_data is not None and entry_data.get(CONF_PASSWORD) is not None] *)
Definition has_password (entry_data : option (gmap string pyval)) : bool :=
  match entry_data with
  | Some d =>
      match mapping_get d (CONF_PASSWORD env) with
      | Some _ => true
      | None => false
      end
  | None => false
  end.

(** [self.username = value] *)
Definition set_username (v : pyval) : F unit :=
  fun s => (inr tt, mkFlowState v (title_placeholders s) (calls s)).

(** [self.context["title_placeholders"] = {CONF_USERNAME: self.username}] *)
Definition set_title_placeholders : F unit :=
  fun s =>
    (inr tt,
     mkFlowState (username s) (Some {[CONF_USERNAME env := username s]}) (calls s)).

(** [self.username] *)
Definition get_username : F pyval := fun s => (inr (username s), s).

(** Handle configuration by re-auth. *)
Definition async_step_reauth (entry_data : option (gmap string pyval))
    : F FlowResult :=
  let errors : gmap string string := ∅ in
  (if has_username entry_data
   then u <~ subscript (default ∅ entry_data) (CONF_USERNAME env) ;; set_username u
   else F_ret tt) ;;~
  set_title_placeholders ;;~
  if has_password entry_data then
    F_call NewClient ;;~
    try_except_else
      (u <~ get_username ;;
       p <~ subscript (default ∅ entry_data) (CONF_PASSWORD env) ;;
       F_call (Authenticate u p) ;;~
       F_lift (authenticate env u p))
      is_ClientError
      (let errors := <["base" := "connection_error"]> errors in
       F_ret (async_show_form "reauth" REAUTH_SCHEMA errors))
      (fun authenticated : bool =>
         if authenticated then
           u <~ get_username ;;
           F_call (SetUniqueId u) ;;~
           entry_ <~ F_lift (set_unique_id env u) ;;
           u <~ get_username ;;
           p <~ subscript (default ∅ entry_data) (CONF_PASSWORD env) ;;
           F_call (UpdateEntry entry_ (credentials u p)) ;;~
           may_raise (update_entry env entry_ (credentials u p)) ;;~
           F_ret (async_abort "reauth_successful")
         else
           let errors := <["base" := "authorization_error"]> errors in
           F_ret (async_show_form "reauth" REAUTH_SCHEMA errors))
  else F_ret (async_show_form "reauth" REAUTH_SCHEMA errors).

End ConfigFlow.

(** The calls that set the unique id of the flow. *)
Definition sets_unique_id (c : flow_call) : bool :=
  match c with
  | SetUniqueId _ => true
  | _ => false
  end.

(** The calls that update a config entry. *)
Definition updates_entry (c : flow_call) : bool :=
  match c with
  | UpdateEntry _ _ => true
  | _ => false
  end.

(** Collaborators to run the steps with: the keys are "username" and
    "password"; the client accepts the password "secret", cannot be reached
    with the password "offline" and refuses any other; the account "known"
    is configured already, as entry 7. *)
Definition sample_collaborators : Collaborators :=
  {| CONF_USERNAME := "username";
     CONF_PASSWORD := "password";
     authenticate := fun _ p =>
       if bool_decide (p = Some "secret") then inr true
       else if bool_decide (p = Some "offline") then inl (ClientError "timeout")
       else inr false;
     client_username := fun u _ => u;
     set_unique_id := fun u =>
       inr (if bool_decide (u = Some "known") then Some (Entry 7) else None);
     abort_if_unique_id_configured := fun u =>
       if bool_decide (u = Some "known")
       then Some (AbortFlow "already_configured") else None;
     update_entry := fun _ _ => None |}.

(** What a form with a username and a password submits. *)
Definition sample_input (u p : string) : gmap string pyval :=
  <["password" := Some p]> {["username" := Some u]}.

(** ** Properties *)

(** *** Strings *)

Lemma format_unit_not_recognized (unit unit_type : string) :
  format UNIT_NOT_RECOGNIZED_TEMPLATE [unit; unit_type]
  = "unit '" +:+ unit +:+ "' is not a recognized " +:+ unit_type +:+ " unit".
Proof. reflexivity. Qed.

Lemma append_cons (x : ascii) (a b : string) :
  String x a +:+ b = String x (a +:+ b).
Proof. reflexivity. Qed.

Lemma append_assoc (a b c : string) : (a +:+ b) +:+ c = a +:+ (b +:+ c).
Proof.
  induction a as [|x a IH]; [reflexivity|].
  now rewrite !append_cons, IH.
Qed.

Lemma append_empty_r (a : string) : a +:+ "" = a.
Proof.
  induction a as [|x a IH]; [reflexivity|].
  now rewrite append_cons, IH.
Qed.

Lemma occurs_in_join (sep x : string) (parts : list string) :
  In x parts -> occurs_in x (join sep parts).
Proof.
  induction parts as [|p rest IH]; intros Hin; [destruct Hin|].
  destruct Hin as [-> | Hin].
  - destruct rest as [|q rest].
    + exists "", "". change (join sep [x]) with x.
      change ("" +:+ x +:+ "") with (x +:+ ""). now rewrite append_empty_r.
    + exists "", (sep +:+ join sep (q :: rest)). reflexivity.
  - destruct rest as [|q rest]; [destruct Hin|].
    destruct (IH Hin) as (before & after & Heq).
    exists (p +:+ sep +:+ before), after.
    change (join sep (p :: q :: rest)) with (p +:+ sep +:+ join sep (q :: rest)).
    rewrite Heq. now rewrite !append_assoc.
Qed.

Lemma truthy_append (a b : string) : truthy a = true -> truthy (a +:+ b) = true.
Proof. destruct a; [discriminate | reflexivity]. Qed.

Lemma truthy_join (sep : string) (parts : list string) :
  Forall (fun p => truthy p = true) parts ->
  truthy (join sep parts) = negb (forallb (fun _ => false) parts).
Proof.
  intros Hall. destruct Hall as [|p rest Hp Hrest]; [reflexivity|].
  destruct rest as [|q rest]; simpl; [exact Hp | now apply truthy_append].
Qed.

(** *** Validity of units *)

Lemma filter_map_errors (pairs : list (string * string)) :
  map (fun p => format UNIT_NOT_RECOGNIZED_TEMPLATE [p.1; p.2])
    (List.filter (fun p => negb (_is_valid_unit p.1 p.2)) pairs)
  = concat (map (fun p => error_of p.1 p.2) pairs).
Proof.
  induction pairs as [|[u c] pairs IH]; [reflexivity|].
  cbn [List.filter map concat fst snd]. unfold error_of at 1.
  cbn [fst snd].
  destruct (_is_valid_unit u c); cbn [negb app map]; now rewrite IH.
Qed.

Lemma init_errors_in_order (t l ws v m p a : string) :
  init_errors t l ws v m p a
  = join ", " (errors_in_category_order t l ws v m p a).
Proof.
  unfold init_errors. rewrite filter_map_errors.
  unfold init_pairs, errors_in_category_order.
  cbn [map concat fst snd]. now rewrite app_nil_r.
Qed.

Lemma filter_invalid_nil (pairs : list (string * string)) :
  List.filter (fun p => negb (_is_valid_unit p.1 p.2)) pairs = []
  <-> Forall (fun p => _is_valid_unit p.1 p.2 = true) pairs.
Proof.
  induction pairs as [|q pairs IH]; simpl.
  - split; [constructor | reflexivity].
  - destruct (_is_valid_unit q.1 q.2) eqn:Hq; simpl.
    + rewrite IH. split; [now constructor | now inversion 1].
    + split; [discriminate | inversion 1; congruence].
Qed.

Lemma units_valid_pairs (t l ws v m p a : string) :
  units_valid t l ws v m p a
  <-> Forall (fun q => _is_valid_unit q.1 q.2 = true) (init_pairs t l ws v m p a).
Proof.
  unfold units_valid, init_pairs. rewrite !Forall_cons, Forall_nil.
  cbn [fst snd]. tauto.
Qed.

Lemma init_errors_truthy (t l ws v m p a : string) :
  truthy (init_errors t l ws v m p a) = false <-> units_valid t l ws v m p a.
Proof.
  rewrite units_valid_pairs, <- filter_invalid_nil.
  unfold init_errors.
  set (bad := List.filter _ _).
  rewrite truthy_join.
  - destruct bad; simpl; split; congruence.
  - apply List.Forall_forall. intros x Hx. apply in_map_iff in Hx.
    destruct Hx as (q & <- & _). reflexivity.
Qed.

Lemma invalid_pair_reported (pairs : list (string * string)) (unit unit_type : string) :
  In (unit, unit_type) pairs ->
  _is_valid_unit unit unit_type = false ->
  In (format UNIT_NOT_RECOGNIZED_TEMPLATE [unit; unit_type])
    (map (fun p => format UNIT_NOT_RECOGNIZED_TEMPLATE [p.1; p.2])
       (List.filter (fun p => negb (_is_valid_unit p.1 p.2)) pairs)).
Proof.
  intros Hin Hbad. apply in_map_iff. exists (unit, unit_type). split; [reflexivity|].
  apply filter_In. split; [exact Hin|]. cbn [fst snd]. now rewrite Hbad.
Qed.

Lemma UnitSystem___init___inr (self : nat) (name t l ws v m p a : string) (o : UnitSystem) :
  UnitSystem___init__ self name t l ws v m p a = inr o ->
  units_valid t l ws v m p a
  /\ o = mkUnitSystem self name a t l m p v ws.
Proof.
  unfold UnitSystem___init__.
  destruct (truthy (init_errors t l ws v m p a)) eqn:E; [discriminate|].
  intros [= <-]. split; [now apply init_errors_truthy | reflexivity].
Qed.

Lemma UnitSystem___init___valid (self : nat) (name t l ws v m p a : string) :
  units_valid t l ws v m p a ->
  UnitSystem___init__ self name t l ws v m p a
  = inr (mkUnitSystem self name a t l m p v ws).
Proof.
  intros Hv. apply init_errors_truthy in Hv.
  unfold UnitSystem___init__. now rewrite Hv.
Qed.

Lemma UnitSystem___init___invalid (self : nat) (name t l ws v m p a : string) :
  ~ units_valid t l ws v m p a ->
  UnitSystem___init__ self name t l ws v m p a
  = inl (ValueError (init_errors t l ws v m p a)).
Proof.
  intros Hv. unfold UnitSystem___init__.
  destruct (truthy (init_errors t l ws v m p a)) eqn:E; [reflexivity|].
  now apply init_errors_truthy in E.
Qed.

(** *** Construction *)

(** C1. Construction succeeds exactly when every one of the seven supplied
    units belongs to its category's valid set, and then stores the seven
    units as given; a bundle that construction returns holds valid units
    only; when some unit is invalid the call raises one [ValueError], leaves
    the world as it was (no object comes into being), and the text of the
    error contains the rendering of every invalid (unit, category) pair. *)
Theorem UnitSystem_construction_all_or_nothing
    (w : World) (name t l ws v m p a : string) :
  (units_valid t l ws v m p a <->
   exists self, UnitSystem_new name t l ws v m p a w
                = (inr self, mkWorld (S (next_id w)) (trace w)))
  /\ (forall self w', UnitSystem_new name t l ws v m p a w = (inr self, w') ->
        valid_bundle self
        /\ self = mkUnitSystem (next_id w) name a t l m p v ws)
  /\ (~ units_valid t l ws v m p a ->
        exists msg,
          UnitSystem_new name t l ws v m p a w = (inl (ValueError msg), w)
          /\ forall unit unit_type,
               In (unit, unit_type) (init_pairs t l ws v m p a) ->
               _is_valid_unit unit unit_type = false ->
               occurs_in (format UNIT_NOT_RECOGNIZED_TEMPLATE [unit; unit_type]) msg).
Proof.
  unfold UnitSystem_new. split; [|split].
  - split.
    + intros Hv. rewrite (UnitSystem___init___valid _ _ _ _ _ _ _ _ _ Hv). eauto.
    + intros [self Hnew].
      destruct (UnitSystem___init__ _ _ _ _ _ _ _ _ _) eqn:E; [discriminate|].
      now apply UnitSystem___init___inr in E.
  - intros self w' Hnew.
    destruct (UnitSystem___init__ _ _ _ _ _ _ _ _ _) eqn:E; [discriminate|].
    injection Hnew as <- <-.
    apply UnitSystem___init___inr in E. destruct E as [Hv ->].
    split; [|reflexivity].
    unfold units_valid in Hv. unfold valid_bundle. cbn. tauto.
  - intros Hbad. exists (init_errors t l ws v m p a).
    rewrite (UnitSystem___init___invalid _ _ _ _ _ _ _ _ _ Hbad).
    split; [reflexivity|].
    intros unit unit_type Hin Hinv. unfold init_errors.
    apply occurs_in_join. now apply invalid_pair_reported.
Qed.

(** C9. When construction fails, the error is a [ValueError] whose text is the
    renderings of the invalid pairs joined by a comma and a space, in the
    order accumulated precipitation, temperature, length, wind speed, volume,
    mass, pressure, whatever the arguments are. *)
Theorem UnitSystem_error_order
    (self : nat) (name t l ws v m p a : string) (e : exn) :
  UnitSystem___init__ self name t l ws v m p a = inl e ->
  e = ValueError (join ", " (errors_in_category_order t l ws v m p a)).
Proof.
  unfold UnitSystem___init__.
  destruct (truthy (init_errors t l ws v m p a)); [|discriminate].
  intros [= <-]. now rewrite init_errors_in_order.
Qed.

(** The last parameter of the constructor is reported first, the second
    parameter after it. *)
Lemma UnitSystem_error_order_witness :
  UnitSystem___init__ 0 "x" "bad_t" "km" "m/s" "L" "g" "Pa" "bad_p"
  = inl (ValueError
           ("unit 'bad_p' is not a recognized accumulated_precipitation unit, " +:+
            "unit 'bad_t' is not a recognized temperature unit"))
  /\ ValueError
       ("unit 'bad_p' is not a recognized accumulated_precipitation unit, " +:+
        "unit 'bad_t' is not a recognized temperature unit")
     = ValueError
         (join ", " (errors_in_category_order "bad_t" "km" "m/s" "L" "g" "Pa" "bad_p")).
Proof.
  assert (H : UnitSystem___init__ 0 "x" "bad_t" "km" "m/s" "L" "g" "Pa" "bad_p"
              = inl (ValueError
                   ("unit 'bad_p' is not a recognized accumulated_precipitation unit, " +:+
                    "unit 'bad_t' is not a recognized temperature unit")))
    by (vm_compute; reflexivity).
  split; [exact H|].
  exact (UnitSystem_error_order 0 "x" "bad_t" "km" "m/s" "L" "g" "Pa" "bad_p" _ H).
Defined.

(** An invalid length together with an invalid mass: one error, which
    mentions both. *)
Lemma UnitSystem_construction_all_or_nothing_witness :
  exists msg,
    UnitSystem_new "x" "°C" "bad_l" "m/s" "L" "bad_m" "Pa" "mm" initial_world
    = (inl (ValueError msg), initial_world)
    /\ occurs_in "unit 'bad_l' is not a recognized length unit" msg
    /\ occurs_in "unit 'bad_m' is not a recognized mass unit" msg.
Proof.
  destruct (UnitSystem_construction_all_or_nothing initial_world
              "x" "°C" "bad_l" "m/s" "L" "bad_m" "Pa" "mm") as (_ & _ & Hbad).
  destruct Hbad as (msg & Hnew & Hall).
  - intros (_ & Hl & _). vm_compute in Hl. discriminate Hl.
  - exists msg. split; [exact Hnew|]. split.
    + apply (Hall "bad_l" LENGTH); [|vm_compute; reflexivity].
      right; right; left; reflexivity.
    + apply (Hall "bad_m" MASS); [|vm_compute; reflexivity].
      do 5 right; left; reflexivity.
Defined.

(** *** Units of accumulated precipitation *)

(** The set that both length and accumulated precipitation are checked
    against has the eight values of [LengthUnit]. *)
Lemma LENGTH_UNITS_elements (unit : string) :
  unit ∈ LENGTH_UNITS
  <-> unit ∈ ["mm"; "cm"; "m"; "km"; "in"; "ft"; "yd"; "mi"].
Proof. unfold LENGTH_UNITS, enum_values. now rewrite elem_of_list_to_set. Qed.

(** The values of [PrecipitationUnit] are millimeters and inches, but the
    check for accumulated precipitation uses the set of length units, so a
    length unit outside [PrecipitationUnit], such as kilometers, passes it. *)
Lemma precipitation_accepts_kilometers :
  _is_valid_unit "km" ACCUMULATED_PRECIPITATION = true
  /\ "km" ∉ enum_values PrecipitationUnit.
Proof.
  split; [vm_compute; reflexivity|].
  unfold enum_values. rewrite elem_of_list_to_set. cbn.
  rewrite !elem_of_cons, elem_of_nil. intros [H|[H|[]]]; discriminate H.
Qed.

(** C8. A unit is valid for accumulated precipitation exactly when it is
    valid for length: both are checked against the set of length units.
    The two remain distinct categories, and a bundle's unit for one may
    differ from its unit for the other, as in the metric system (kilometers
    and millimeters). *)
Theorem precipitation_units_are_length_units (unit : string) :
  (_is_valid_unit unit ACCUMULATED_PRECIPITATION = true
   <-> _is_valid_unit unit LENGTH = true)
  /\ _is_valid_unit unit ACCUMULATED_PRECIPITATION = bool_decide (unit ∈ LENGTH_UNITS)
  /\ _is_valid_unit unit LENGTH = bool_decide (unit ∈ LENGTH_UNITS)
  /\ ACCUMULATED_PRECIPITATION <> LENGTH
  /\ exists self,
       UnitSystem___init__ 0 _CONF_UNIT_SYSTEM_METRIC TEMP_CELSIUS
         LENGTH_KILOMETERS SPEED_METERS_PER_SECOND VOLUME_LITERS MASS_GRAMS
         PRESSURE_PA LENGTH_MILLIMETERS = inr self
       /\ accumulated_precipitation_unit self <> length_unit self.
Proof.
  assert (Hp : _is_valid_unit unit ACCUMULATED_PRECIPITATION
               = bool_decide (unit ∈ LENGTH_UNITS)) by reflexivity.
  assert (Hl : _is_valid_unit unit LENGTH = bool_decide (unit ∈ LENGTH_UNITS))
    by reflexivity.
  split; [now rewrite Hp, Hl|]. split; [exact Hp|]. split; [exact Hl|].
  split; [discriminate|].
  eexists. split; [vm_compute; reflexivity|]. cbn. discriminate.
Qed.

(** *** Conversion methods *)

Section ConversionFacts.

Variable convert : Converter -> value -> string -> string -> exn + value.
Variable float_str : float -> string.

Lemma invoke_unfold (m : ConversionMethod) (self : UnitSystem) (v : value)
    (from_unit : string) :
  invoke convert float_str m self v from_unit
  = if negb (isinstance_Number v)
    then raise (TypeError (str float_str v +:+ " is not a numeric value."))
    else call_convert convert (converter_of m) v from_unit (configured_unit m self).
Proof. destruct m; reflexivity. Qed.

Lemma call_convert_run (c : Converter) (v : value) (from_unit to_unit : string)
    (w : World) :
  call_convert convert c v from_unit to_unit w
  = (convert c v from_unit to_unit, after w (Convert c v from_unit to_unit)).
Proof. reflexivity. Qed.

End ConversionFacts.

(** C2. Each of the six conversion methods, given a value that is not an
    instance of [Number], raises a [TypeError] whose text starts with the
    value's own text, and leaves the world as it was, so no converter is
    called; given a numeric value it calls its converter once, with the value,
    [from_unit] as it came, and the bundle's configured unit for the category,
    and its outcome is that converter's outcome. [from_unit] is any string:
    the method does not look at it. The values that are not numeric are
    [None], the texts and the other objects, and the error names each of
    them: "None is not a numeric value." for [None], and the text itself,
    or the text [str()] gives for the object, in place of "None" for the
    others. *)
Theorem conversion_methods_check_value_only
    (convert : Converter -> value -> string -> string -> exn + value)
    (float_str : float -> string)
    (m : ConversionMethod) (self : UnitSystem) (v : value) (from_unit : string)
    (w : World) :
  (isinstance_Number v = false ->
     invoke convert float_str m self v from_unit w
     = (inl (TypeError (str float_str v +:+ " is not a numeric value.")), w)
     /\ converter_calls (trace (invoke convert float_str m self v from_unit w).2)
        = converter_calls (trace w))
  /\ (isinstance_Number v = true ->
     invoke convert float_str m self v from_unit w
     = (convert (converter_of m) v from_unit (configured_unit m self),
        after w (Convert (converter_of m) v from_unit (configured_unit m self))))
  /\ In m conversion_methods
  /\ (isinstance_Number v = false ->
        v = PyNone \/ exists text, v = PyStr text \/ v = PyOther text)
  /\ invoke convert float_str m self PyNone from_unit w
     = (inl (TypeError "None is not a numeric value."), w)
  /\ (forall text,
        invoke convert float_str m self (PyStr text) from_unit w
        = (inl (TypeError (text +:+ " is not a numeric value.")), w))
  /\ (forall text,
        invoke convert float_str m self (PyOther text) from_unit w
        = (inl (TypeError (text +:+ " is not a numeric value.")), w)).
Proof.
  split; [|split; [|split; [|split; [|split; [|split]]]]].
  - intros Hv. rewrite invoke_unfold, Hv. split; reflexivity.
  - intros Hv. rewrite invoke_unfold, Hv. reflexivity.
  - destruct m; cbn; tauto.
  - intros Hv. destruct v as [|b|n|f|text|text]; try discriminate Hv.
    + now left.
    + right. exists text. now left.
    + right. exists text. now right.
  - now rewrite invoke_unfold.
  - intros text. now rewrite invoke_unfold.
  - intros text. now rewrite invoke_unfold.
Qed.

(** C10. A boolean is an instance of [Number]: [bool] derives from [int].
    Every conversion method therefore forwards [True] and [False] to its
    converter and raises no [TypeError] of its own. *)
Theorem booleans_are_numeric
    (convert : Converter -> value -> string -> string -> exn + value)
    (float_str : float -> string)
    (m : ConversionMethod) (self : UnitSystem) (b : bool) (from_unit : string)
    (w : World) :
  isinstance_Number (PyBool b) = true
  /\ mro (type_of (PyBool b)) = [c_bool; c_int]
  /\ invoke convert float_str m self (PyBool b) from_unit w
     = (convert (converter_of m) (PyBool b) from_unit (configured_unit m self),
        after w (Convert (converter_of m) (PyBool b) from_unit
                   (configured_unit m self))).
Proof.
  split; [reflexivity|]. split; [reflexivity|].
  now rewrite invoke_unfold.
Qed.

(** C7. For a numeric value, the accumulated-precipitation method is the
    delegation to the distance converter with the bundle's
    accumulated-precipitation unit as target: the same converter as the
    length method, which it equals on the bundle whose length unit is set to
    the accumulated-precipitation unit. *)
Theorem accumulated_precipitation_uses_distance_converter
    (convert : Converter -> value -> string -> string -> exn + value)
    (float_str : float -> string)
    (self : UnitSystem) (precip : value) (from_unit : string) (w : World) :
  isinstance_Number precip = true ->
  UnitSystem_accumulated_precipitation convert float_str self precip from_unit w
  = accumulated_precipitation_by_delegation convert float_str self precip from_unit w
  /\ UnitSystem_accumulated_precipitation convert float_str self precip from_unit w
     = UnitSystem_length convert float_str
         (with_length_unit self (accumulated_precipitation_unit self))
         precip from_unit w
  /\ (UnitSystem_accumulated_precipitation convert float_str self precip from_unit w).1
     = convert DistanceConverter precip from_unit (accumulated_precipitation_unit self).
Proof.
  intros Hnum.
  unfold UnitSystem_accumulated_precipitation, UnitSystem_length,
    accumulated_precipitation_by_delegation.
  rewrite Hnum. cbn [negb]. repeat split.
Qed.

Lemma accumulated_precipitation_uses_distance_converter_witness :
  let convert := fun (_ : Converter) (v : value) (_ _ : string) => inr v in
  let float_str := fun _ : float => "" in
  let self := mkUnitSystem 0 "metric" "mm" "°C" "km" "g" "Pa" "L" "m/s" in
  isinstance_Number (PyInt 25) = true
  /\ UnitSystem_accumulated_precipitation convert float_str self (PyInt 25) "in"
       initial_world
     = (inr (PyInt 25),
        mkWorld 0 [Convert DistanceConverter (PyInt 25) "in" "mm"]).
Proof.
  split; [reflexivity|].
  destruct (accumulated_precipitation_uses_distance_converter
              (fun _ v _ _ => inr v) (fun _ => "")
              (mkUnitSystem 0 "metric" "mm" "°C" "km" "g" "Pa" "L" "m/s")
              (PyInt 25) "in" initial_world eq_refl) as (Heq & _).
  rewrite Heq. reflexivity.
Defined.

(** *** The predefined systems and the lookup *)

Lemma metric_units_valid :
  units_valid TEMP_CELSIUS LENGTH_KILOMETERS SPEED_METERS_PER_SECOND
    VOLUME_LITERS MASS_GRAMS PRESSURE_PA LENGTH_MILLIMETERS.
Proof. repeat split; vm_compute; reflexivity. Qed.

Lemma us_customary_units_valid :
  units_valid TEMP_FAHRENHEIT LENGTH_MILES SPEED_MILES_PER_HOUR
    VOLUME_GALLONS MASS_POUNDS PRESSURE_PSI LENGTH_INCHES.
Proof. repeat split; vm_compute; reflexivity. Qed.

(** Importing the module creates two objects, one after the other, and binds
    [IMPERIAL_SYSTEM] to the second of them. *)
Lemma import_module_run (w : World) :
  import_module w
  = (inr {| METRIC_SYSTEM :=
              mkUnitSystem (next_id w) "metric" "mm" "°C" "km" "g" "Pa" "L" "m/s";
            US_CUSTOMARY_SYSTEM :=
              mkUnitSystem (S (next_id w)) "us_customary" "in" "°F" "mi" "lb"
                "psi" "gal" "mph";
            IMPERIAL_SYSTEM :=
              mkUnitSystem (S (next_id w)) "us_customary" "in" "°F" "mi" "lb"
                "psi" "gal" "mph" |},
     mkWorld (S (S (next_id w))) (trace w)).
Proof.
  unfold import_module, bind, UnitSystem_new.
  rewrite (UnitSystem___init___valid _ _ _ _ _ _ _ _ _ metric_units_valid).
  cbn [next_id trace].
  rewrite (UnitSystem___init___valid _ _ _ _ _ _ _ _ _ us_customary_units_valid).
  reflexivity.
Qed.

Lemma import_module_globals (w0 w1 : World) (g : Globals) :
  import_module w0 = (inr g, w1) ->
  METRIC_SYSTEM g
    = mkUnitSystem (next_id w0) "metric" "mm" "°C" "km" "g" "Pa" "L" "m/s"
  /\ US_CUSTOMARY_SYSTEM g
    = mkUnitSystem (S (next_id w0)) "us_customary" "in" "°F" "mi" "lb" "psi"
        "gal" "mph"
  /\ IMPERIAL_SYSTEM g = US_CUSTOMARY_SYSTEM g.
Proof. rewrite import_module_run. intros [= <- _]. repeat split. Qed.

Lemma is_refl (a : UnitSystem) : is_ a a = true.
Proof. apply Nat.eqb_refl. Qed.

(** C3. Once the module is imported, the lookup returns the metric object for
    the key "metric" and the US customary object for the key "us_customary",
    and raises a [ValueError] that quotes the key for any other key, among
    them "imperial", a key in another letter case and a prefix of a key. A
    call changes nothing and its answer does not depend on the world, so
    repeated calls with a valid key give the same object. *)
Theorem get_unit_system_lookup
    (w0 w1 : World) (g : Globals) (key : string) (w : World) :
  import_module w0 = (inr g, w1) ->
  (key = "metric" -> get_unit_system g key w = (inr (METRIC_SYSTEM g), w))
  /\ (key = "us_customary" ->
        get_unit_system g key w = (inr (US_CUSTOMARY_SYSTEM g), w))
  /\ (key <> "metric" -> key <> "us_customary" ->
        get_unit_system g key w
        = (inl (ValueError ("`" +:+ key +:+ "` is not a valid unit system key")), w))
  /\ get_unit_system g "imperial" w
     = (inl (ValueError "`imperial` is not a valid unit system key"), w)
  /\ get_unit_system g "Metric" w
     = (inl (ValueError "`Metric` is not a valid unit system key"), w)
  /\ get_unit_system g "metri" w
     = (inl (ValueError "`metri` is not a valid unit system key"), w)
  /\ (forall w' a,
        get_unit_system g key w = (inr a, w') ->
        w' = w
        /\ forall w'', exists b,
             get_unit_system g key w'' = (inr b, w'') /\ is_ a b = true)
  /\ METRIC_SYSTEM g
     = mkUnitSystem (next_id w0) "metric" "mm" "°C" "km" "g" "Pa" "L" "m/s"
  /\ US_CUSTOMARY_SYSTEM g
     = mkUnitSystem (S (next_id w0)) "us_customary" "in" "°F" "mi" "lb" "psi"
         "gal" "mph"
  /\ is_ (METRIC_SYSTEM g) (US_CUSTOMARY_SYSTEM g) = false.
Proof.
  intros Himport.
  destruct (import_module_globals _ _ _ Himport) as (Hm & Hu & _).
  split; [intros ->; reflexivity|].
  split; [intros ->; reflexivity|].
  split.
  { intros Hnm Hnu. unfold get_unit_system.
    destruct (String.eqb_spec key _CONF_UNIT_SYSTEM_US_CUSTOMARY) as [E|_];
      [now elim Hnu|].
    destruct (String.eqb_spec key _CONF_UNIT_SYSTEM_METRIC) as [E|_];
      [now elim Hnm|].
    reflexivity. }
  do 3 (split; [reflexivity|]).
  split.
  { intros w' a. unfold get_unit_system.
    destruct (String.eqb key _CONF_UNIT_SYSTEM_US_CUSTOMARY).
    - intros [= <- <-]. split; [reflexivity|].
      intros w''. eexists. split; [reflexivity | apply is_refl].
    - destruct (String.eqb key _CONF_UNIT_SYSTEM_METRIC); [|discriminate].
      intros [= <- <-]. split; [reflexivity|].
      intros w''. eexists. split; [reflexivity | apply is_refl]. }
  split; [exact Hm|]. split; [exact Hu|].
  rewrite Hm, Hu. unfold is_. cbn [oid]. apply Nat.eqb_neq. lia.
Qed.

Lemma import_module_initial :
  import_module initial_world = (inr imported, mkWorld 2 []).
Proof. rewrite import_module_run. reflexivity. Qed.

Lemma get_unit_system_lookup_witness :
  import_module initial_world = (inr imported, mkWorld 2 [])
  /\ get_unit_system imported "metric" (mkWorld 2 [])
     = (inr (mkUnitSystem 0 "metric" "mm" "°C" "km" "g" "Pa" "L" "m/s"),
        mkWorld 2 []).
Proof.
  split; [exact import_module_initial|].
  destruct (get_unit_system_lookup initial_world (mkWorld 2 []) imported
              "metric" (mkWorld 2 []) import_module_initial) as (Hmetric & _).
  exact (Hmetric eq_refl).
Defined.

(** *** The deprecated accessors *)

Lemma notices_after (w : World) (what : string) (error_if_core : bool) :
  notices (trace (after w (Report what error_if_core)))
  = (notices (trace w) ++ [Report what error_if_core])%list.
Proof. unfold notices, after. cbn [trace]. now rewrite List.filter_app. Qed.

(** C5. Once the module is imported: [name] on the US customary object
    returns "imperial" although the name stored in it is "us_customary", and
    on any other object returns the stored name; [is_metric] returns whether
    the object is the metric object, so true on the metric object, false on
    the US customary one and false on an object created later from the same
    arguments as the metric one; and every access returns normally after
    exactly one call of [report], which adds one notice to the trace. *)
Theorem deprecated_accessors
    (w0 w1 : World) (g : Globals) (self : UnitSystem) (w : World) :
  import_module w0 = (inr g, w1) ->
  UnitSystem_name g (US_CUSTOMARY_SYSTEM g) w
  = (inr "imperial", after w (Report name_notice false))
  /\ _name (US_CUSTOMARY_SYSTEM g) = "us_customary"
  /\ (is_ self (US_CUSTOMARY_SYSTEM g) = false ->
        UnitSystem_name g self w
        = (inr (_name self), after w (Report name_notice false)))
  /\ UnitSystem_is_metric g self w
     = (inr (is_ self (METRIC_SYSTEM g)), after w (Report is_metric_notice false))
  /\ is_ (METRIC_SYSTEM g) (METRIC_SYSTEM g) = true
  /\ is_ (US_CUSTOMARY_SYSTEM g) (METRIC_SYSTEM g) = false
  /\ (forall other w2,
        UnitSystem_new _CONF_UNIT_SYSTEM_METRIC TEMP_CELSIUS LENGTH_KILOMETERS
          SPEED_METERS_PER_SECOND VOLUME_LITERS MASS_GRAMS PRESSURE_PA
          LENGTH_MILLIMETERS w1 = (inr other, w2) ->
        is_ other (METRIC_SYSTEM g) = false)
  /\ length (notices (trace (UnitSystem_name g self w).2))
     = S (length (notices (trace w)))
  /\ length (notices (trace (UnitSystem_is_metric g self w).2))
     = S (length (notices (trace w))).
Proof.
  intros Himport.
  destruct (import_module_globals _ _ _ Himport) as (Hm & Hu & Hi).
  assert (Hname : forall o, UnitSystem_name g o w
            = (inr (if is_ o (IMPERIAL_SYSTEM g) then "imperial" else _name o),
               after w (Report name_notice false))).
  { intros o. unfold UnitSystem_name, bind, report, emit, ret.
    now destruct (is_ o (IMPERIAL_SYSTEM g)). }
  split; [now rewrite Hname, Hi, is_refl|].
  split; [now rewrite Hu|].
  split; [intros Hother; now rewrite Hname, Hi, Hother|].
  split; [reflexivity|].
  split; [apply is_refl|].
  split; [rewrite Hm, Hu; unfold is_; cbn [oid]; apply Nat.eqb_neq; lia|].
  split.
  { intros other w2 Hnew. rewrite import_module_run in Himport.
    injection Himport as _ <-. unfold UnitSystem_new in Hnew.
    rewrite (UnitSystem___init___valid _ _ _ _ _ _ _ _ _ metric_units_valid) in Hnew.
    injection Hnew as <- _. rewrite Hm. unfold is_. cbn [oid next_id].
    apply Nat.eqb_neq. lia. }
  split.
  - rewrite Hname. cbn [snd]. rewrite notices_after, length_app. cbn. lia.
  - unfold UnitSystem_is_metric, bind, report, emit, ret. cbn [snd].
    change (mkWorld (next_id w) (trace w ++ [Report is_metric_notice false]))
      with (after w (Report is_metric_notice false)).
    rewrite notices_after, length_app. cbn. lia.
Qed.

Lemma deprecated_accessors_witness :
  import_module initial_world = (inr imported, mkWorld 2 [])
  /\ UnitSystem_name imported (US_CUSTOMARY_SYSTEM imported) (mkWorld 2 [])
     = (inr "imperial", mkWorld 2 [Report name_notice false])
  /\ UnitSystem_is_metric imported (METRIC_SYSTEM imported) (mkWorld 2 [])
     = (inr true, mkWorld 2 [Report is_metric_notice false]).
Proof.
  split; [exact import_module_initial|].
  destruct (deprecated_accessors initial_world (mkWorld 2 []) imported
              (METRIC_SYSTEM imported) (mkWorld 2 []) import_module_initial)
    as (Hname & _ & _ & Hmetric & _).
  split; [exact Hname | exact Hmetric].
Defined.

(** *** Export *)

(** C6. The dictionary of a bundle has exactly the seven category keys, each
    mapped to the bundle's unit for that category; for the metric object of
    the imported module it is the mapping length to km, accumulated
    precipitation to mm, mass to g, pressure to Pa, temperature to degrees
    Celsius, volume to L and wind speed to m/s. *)
Theorem as_dict_exports_seven_categories
    (w0 w1 : World) (g : Globals) (self : UnitSystem) :
  import_module w0 = (inr g, w1) ->
  dom (UnitSystem_as_dict self) = category_keys
  /\ size (UnitSystem_as_dict self) = 7
  /\ UnitSystem_as_dict self !! LENGTH = Some (length_unit self)
  /\ UnitSystem_as_dict self !! ACCUMULATED_PRECIPITATION
     = Some (accumulated_precipitation_unit self)
  /\ UnitSystem_as_dict self !! MASS = Some (mass_unit self)
  /\ UnitSystem_as_dict self !! PRESSURE = Some (pressure_unit self)
  /\ UnitSystem_as_dict self !! TEMPERATURE = Some (temperature_unit self)
  /\ UnitSystem_as_dict self !! VOLUME = Some (volume_unit self)
  /\ UnitSystem_as_dict self !! WIND_SPEED = Some (wind_speed_unit self)
  /\ UnitSystem_as_dict (METRIC_SYSTEM g) = metric_mapping.
Proof.
  intros Himport.
  destruct (import_module_globals _ _ _ Himport) as (Hm & _ & _).
  assert (Hdom : dom (UnitSystem_as_dict self) = category_keys).
  { unfold UnitSystem_as_dict, category_keys.
    rewrite !dom_insert_L, dom_empty_L. set_solver. }
  split; [exact Hdom|].
  split.
  { rewrite <- size_dom, Hdom. reflexivity. }
  do 7 (split; [reflexivity|]).
  rewrite Hm. reflexivity.
Qed.

Lemma as_dict_exports_seven_categories_witness :
  import_module initial_world = (inr imported, mkWorld 2 [])
  /\ UnitSystem_as_dict (METRIC_SYSTEM imported) !! "temperature" = Some "°C"
  /\ UnitSystem_as_dict (METRIC_SYSTEM imported) = metric_mapping.
Proof.
  split; [exact import_module_initial|].
  destruct (as_dict_exports_seven_categories initial_world (mkWorld 2 [])
              imported (METRIC_SYSTEM imported) import_module_initial)
    as (_ & _ & _ & _ & _ & _ & Htemp & _ & _ & Hmetric).
  split; [exact Htemp | exact Hmetric].
Defined.

(** *** Validation of a configured key *)

Lemma validate_unit_system_unfold (value_ : string) :
  validate_unit_system value_
  = vol_Any [_CONF_UNIT_SYSTEM_METRIC; _CONF_UNIT_SYSTEM_US_CUSTOMARY]
      (_deprecated_unit_system (lower value_)).
Proof.
  unfold validate_unit_system. cbn [vol_All vol_Lower].
  now destruct (vol_Any _ _).
Qed.

Lemma validate_unit_system_cases (value_ : string) :
  validate_unit_system value_
  = if String.eqb (lower value_) "imperial" then inr "us_customary"
    else if String.eqb (lower value_) "metric" then inr "metric"
    else if String.eqb (lower value_) "us_customary" then inr "us_customary"
    else inl (Invalid "not a valid value").
Proof.
  rewrite validate_unit_system_unfold.
  unfold _deprecated_unit_system, vol_Any, _CONF_UNIT_SYSTEM_IMPERIAL,
    _CONF_UNIT_SYSTEM_METRIC, _CONF_UNIT_SYSTEM_US_CUSTOMARY.
  destruct (String.eqb (lower value_) "imperial"); [reflexivity|].
  cbn [existsb].
  destruct (String.eqb_spec (lower value_) "metric") as [->|_]; [reflexivity|].
  destruct (String.eqb_spec (lower value_) "us_customary") as [->|_]; reflexivity.
Qed.

(** C4. The validation looks at the key in lower case only, so keys that
    differ in letter case get the same answer; a key that is "imperial" in
    lower case is rewritten to "us_customary"; a key that is "metric" or
    "us_customary" in lower case is accepted in that spelling; every other
    key is refused; an accepted key always comes back as one of the two
    canonical spellings. *)
Theorem validate_unit_system_normalizes (value_ : string) :
  (lower value_ = "imperial" -> validate_unit_system value_ = inr "us_customary")
  /\ (lower value_ = "us_customary" ->
        validate_unit_system value_ = inr "us_customary")
  /\ (lower value_ = "metric" -> validate_unit_system value_ = inr "metric")
  /\ (lower value_ <> "imperial" -> lower value_ <> "us_customary" ->
      lower value_ <> "metric" ->
        validate_unit_system value_ = inl (Invalid "not a valid value"))
  /\ (forall result, validate_unit_system value_ = inr result ->
        result = "metric" \/ result = "us_customary")
  /\ (forall other, same_ignoring_case other value_ ->
        validate_unit_system other = validate_unit_system value_)
  /\ validate_unit_system "IMPERIAL" = inr "us_customary"
  /\ validate_unit_system "Imperial" = inr "us_customary"
  /\ validate_unit_system "imperial" = inr "us_customary"
  /\ validate_unit_system "metric" = inr "metric"
  /\ validate_unit_system "Metric" = inr "metric"
  /\ validate_unit_system "US_CUSTOMARY" = inr "us_customary"
  /\ validate_unit_system "kelvin-system" = inl (Invalid "not a valid value")
  /\ validate_unit_system "" = inl (Invalid "not a valid value").
Proof.
  split; [intros H; now rewrite validate_unit_system_cases, H|].
  split; [intros H; now rewrite validate_unit_system_cases, H|].
  split; [intros H; now rewrite validate_unit_system_cases, H|].
  split.
  { intros Hi Hu Hm. rewrite validate_unit_system_cases.
    destruct (String.eqb_spec (lower value_) "imperial"); [contradiction|].
    destruct (String.eqb_spec (lower value_) "metric"); [contradiction|].
    destruct (String.eqb_spec (lower value_) "us_customary"); [contradiction|].
    reflexivity. }
  split.
  { intros result. rewrite validate_unit_system_cases.
    destruct (String.eqb (lower value_) "imperial"); [intros [= <-]; now right|].
    destruct (String.eqb (lower value_) "metric"); [intros [= <-]; now left|].
    destruct (String.eqb (lower value_) "us_customary");
      [intros [= <-]; now right | discriminate]. }
  split.
  { intros other Hsame. unfold same_ignoring_case in Hsame.
    now rewrite !validate_unit_system_unfold, Hsame. }
  repeat split.
Qed.

(** *** Examples of conversion calls *)

Lemma conversion_methods_check_value_only_witness :
  let convert := fun (_ : Converter) (v : value) (_ _ : string) => inr v in
  let float_str := fun _ : float => "" in
  isinstance_Number (PyStr "abc") = false
  /\ UnitSystem_temperature convert float_str (METRIC_SYSTEM imported)
       (PyStr "abc") "°F" (mkWorld 2 [])
     = (inl (TypeError "abc is not a numeric value."), mkWorld 2 [])
  /\ isinstance_Number PyNone = false
  /\ UnitSystem_length convert float_str (METRIC_SYSTEM imported)
       PyNone "mi" (mkWorld 2 [])
     = (inl (TypeError "None is not a numeric value."), mkWorld 2 [])
  /\ isinstance_Number (PyOther "[1, 2]") = false
  /\ UnitSystem_pressure convert float_str (METRIC_SYSTEM imported)
       (PyOther "[1, 2]") "psi" (mkWorld 2 [])
     = (inl (TypeError "[1, 2] is not a numeric value."), mkWorld 2 [])
  /\ isinstance_Number (PyInt 5) = true
  /\ UnitSystem_volume convert float_str (METRIC_SYSTEM imported)
       (PyInt 5) "not a unit" (mkWorld 2 [])
     = (inr (PyInt 5),
        mkWorld 2 [Convert VolumeConverter (PyInt 5) "not a unit" "L"]).
Proof.
  intros convert float_str.
  destruct (conversion_methods_check_value_only convert float_str m_temperature
              (METRIC_SYSTEM imported) (PyStr "abc") "°F" (mkWorld 2 []))
    as (Hbad & _).
  destruct (conversion_methods_check_value_only convert float_str m_length
              (METRIC_SYSTEM imported) PyNone "mi" (mkWorld 2 []))
    as (Hnone & _).
  destruct (conversion_methods_check_value_only convert float_str m_pressure
              (METRIC_SYSTEM imported) (PyOther "[1, 2]") "psi" (mkWorld 2 []))
    as (Hobject & _).
  destruct (conversion_methods_check_value_only convert float_str m_volume
              (METRIC_SYSTEM imported) (PyInt 5) "not a unit" (mkWorld 2 []))
    as (_ & Hgood & _).
  split; [reflexivity|]. split; [exact (proj1 (Hbad eq_refl))|].
  split; [reflexivity|]. split; [exact (proj1 (Hnone eq_refl))|].
  split; [reflexivity|]. split; [exact (proj1 (Hobject eq_refl))|].
  split; [reflexivity|]. exact (Hgood eq_refl).
Defined.

Lemma booleans_are_numeric_witness :
  UnitSystem_pressure (fun _ v _ _ => inr v) (fun _ => "")
    (US_CUSTOMARY_SYSTEM imported) (PyBool true) "Pa" (mkWorld 2 [])
  = (inr (PyBool true),
     mkWorld 2 [Convert PressureConverter (PyBool true) "Pa" "psi"]).
Proof.
  exact (proj2 (proj2 (booleans_are_numeric (fun _ v _ _ => inr v) (fun _ => "")
                         m_pressure (US_CUSTOMARY_SYSTEM imported) true "Pa"
                         (mkWorld 2 [])))).
Defined.

(** ** Further properties of the unit system *)

Lemma bool_decide_enum_values (E : Type) `{StrEnum E} (unit : string) :
  bool_decide (unit ∈ enum_values E) = true
  <-> In unit (enum_value <$> enum_members).
Proof.
  unfold enum_values.
  rewrite bool_decide_eq_true, elem_of_list_to_set. apply list_elem_of_In.
Qed.

Lemma _is_valid_unit_table (unit unit_type : string) :
  _is_valid_unit unit unit_type = true <-> In unit (valid_units unit_type).
Proof.
  unfold _is_valid_unit, valid_units, LENGTH_UNITS, WIND_SPEED_UNITS,
    TEMPERATURE_UNITS, MASS_UNITS, VOLUME_UNITS, PRESSURE_UNITS.
  repeat (match goal with
          | |- context [String.eqb unit_type ?c] =>
              destruct (String.eqb unit_type c);
              [apply bool_decide_enum_values|]
          end).
  split; [discriminate | intros []].
Qed.

Lemma valid_units_category (unit unit_type : string) :
  In unit (valid_units unit_type) -> In unit_type categories.
Proof.
  unfold valid_units, categories.
  repeat (match goal with
          | |- context [String.eqb unit_type ?c] =>
              destruct (String.eqb_spec unit_type c) as [->|_];
              [intros _; cbn; tauto|]
          end).
  intros [].
Qed.

(** X1. A unit belongs to one category only, length and accumulated
    precipitation apart, which share their units: the unit sets of the
    enumerations have no value in common. *)
Theorem unit_determines_category (unit type1 type2 : string) :
  _is_valid_unit unit type1 = true ->
  _is_valid_unit unit type2 = true ->
  type1 = type2
  \/ (type1 = LENGTH /\ type2 = ACCUMULATED_PRECIPITATION)
  \/ (type1 = ACCUMULATED_PRECIPITATION /\ type2 = LENGTH).
Proof.
  intros H1 H2.
  apply _is_valid_unit_table in H1.
  pose proof (valid_units_category _ _ H1) as Hc1.
  pose proof (proj1 (_is_valid_unit_table _ _) H2) as H2'.
  pose proof (valid_units_category _ _ H2') as Hc2.
  unfold categories in Hc1, Hc2. cbn [In] in Hc1, Hc2.
  repeat (destruct Hc1 as [<-|Hc1]); try contradiction;
    repeat (destruct Hc2 as [<-|Hc2]); try contradiction;
    try (left; reflexivity); try (right; left; split; reflexivity);
    try (right; right; split; reflexivity);
    exfalso; cbn in H1;
    repeat (destruct H1 as [<-|H1]); try contradiction;
    vm_compute in H2; discriminate H2.
Qed.

Lemma unit_determines_category_witness :
  _is_valid_unit "km" LENGTH = true
  /\ _is_valid_unit "km" ACCUMULATED_PRECIPITATION = true
  /\ (LENGTH = ACCUMULATED_PRECIPITATION
      \/ (LENGTH = LENGTH /\ ACCUMULATED_PRECIPITATION = ACCUMULATED_PRECIPITATION)
      \/ (LENGTH = ACCUMULATED_PRECIPITATION /\ ACCUMULATED_PRECIPITATION = LENGTH)).
Proof.
  assert (H1 : _is_valid_unit "km" LENGTH = true) by (vm_compute; reflexivity).
  assert (H2 : _is_valid_unit "km" ACCUMULATED_PRECIPITATION = true)
    by (vm_compute; reflexivity).
  split; [exact H1|]. split; [exact H2|].
  exact (unit_determines_category "km" LENGTH ACCUMULATED_PRECIPITATION H1 H2).
Defined.

(** X2. A unit type that is none of the seven categories has no valid unit:
    the check answers false for every unit, and a unit is accepted for a
    category exactly when it is one of the values listed for it. *)
Theorem unknown_unit_type_has_no_units (unit unit_type : string) :
  (~ In unit_type categories -> _is_valid_unit unit unit_type = false)
  /\ (_is_valid_unit unit unit_type = true <-> In unit (valid_units unit_type)).
Proof.
  split; [|apply _is_valid_unit_table].
  intros Hnot. destruct (_is_valid_unit unit unit_type) eqn:E; [|reflexivity].
  apply _is_valid_unit_table, valid_units_category in E. contradiction.
Qed.

(** X3. Importing the module cannot fail, whatever the world it starts in:
    both predefined systems pass the constructor's check. It creates two
    objects and nothing else, calls neither [report] nor a converter, and
    leaves [IMPERIAL_SYSTEM] bound to the very object of
    [US_CUSTOMARY_SYSTEM], which is not the metric one. *)
Theorem import_module_succeeds (w : World) :
  exists g,
    import_module w = (inr g, mkWorld (2 + next_id w) (trace w))
    /\ valid_bundle (METRIC_SYSTEM g)
    /\ valid_bundle (US_CUSTOMARY_SYSTEM g)
    /\ IMPERIAL_SYSTEM g = US_CUSTOMARY_SYSTEM g
    /\ is_ (IMPERIAL_SYSTEM g) (US_CUSTOMARY_SYSTEM g) = true
    /\ is_ (IMPERIAL_SYSTEM g) (METRIC_SYSTEM g) = false
    /\ oid (METRIC_SYSTEM g) = next_id w
    /\ oid (US_CUSTOMARY_SYSTEM g) = S (next_id w).
Proof.
  eexists. split; [apply import_module_run|].
  cbn [METRIC_SYSTEM US_CUSTOMARY_SYSTEM IMPERIAL_SYSTEM].
  split; [repeat split; vm_compute; reflexivity|].
  split; [repeat split; vm_compute; reflexivity|].
  split; [reflexivity|]. split; [apply is_refl|].
  split; [|split; reflexivity].
  unfold is_. cbn [oid]. apply Nat.eqb_neq. lia.
Qed.

(** X4. Validation and lookup fit together: a key that
    [validate_unit_system] accepts comes back in a spelling that
    [get_unit_system] finds, so the lookup of a validated key never raises;
    the spelling is never "imperial", and validating it again changes
    nothing. *)
Theorem validated_key_is_found
    (w0 w1 : World) (g : Globals) (value_ key : string) (w : World) :
  import_module w0 = (inr g, w1) ->
  validate_unit_system value_ = inr key ->
  (exists system,
      get_unit_system g key w = (inr system, w)
      /\ (system = METRIC_SYSTEM g \/ system = US_CUSTOMARY_SYSTEM g)
      /\ _name system = key)
  /\ key <> "imperial"
  /\ validate_unit_system key = inr key.
Proof.
  intros Himport Hval.
  destruct (import_module_globals _ _ _ Himport) as (Hm & Hu & _).
  assert (Hkey : key = "metric" \/ key = "us_customary").
  { rewrite validate_unit_system_cases in Hval.
    destruct (String.eqb (lower value_) "imperial"); [injection Hval as <-; now right|].
    destruct (String.eqb (lower value_) "metric"); [injection Hval as <-; now left|].
    destruct (String.eqb (lower value_) "us_customary");
      [injection Hval as <-; now right | discriminate]. }
  destruct Hkey as [-> | ->].
  - split; [|split; [discriminate | reflexivity]].
    exists (METRIC_SYSTEM g). split; [reflexivity|]. split; [now left|].
    now rewrite Hm.
  - split; [|split; [discriminate | reflexivity]].
    exists (US_CUSTOMARY_SYSTEM g). split; [reflexivity|]. split; [now right|].
    now rewrite Hu.
Qed.

Lemma validated_key_is_found_witness :
  import_module initial_world = (inr imported, mkWorld 2 [])
  /\ validate_unit_system "IMPERIAL" = inr "us_customary"
  /\ exists system,
       get_unit_system imported "us_customary" (mkWorld 2 [])
       = (inr system, mkWorld 2 [])
       /\ _name system = "us_customary".
Proof.
  assert (Hval : validate_unit_system "IMPERIAL" = inr "us_customary")
    by reflexivity.
  split; [exact import_module_initial|]. split; [exact Hval|].
  destruct (validated_key_is_found initial_world (mkWorld 2 []) imported
              "IMPERIAL" "us_customary" (mkWorld 2 []) import_module_initial Hval)
    as ((system & Hget & _ & Hname) & _).
  exists system. split; [exact Hget | exact Hname].
Defined.

(** X5. The deprecated name of a predefined system leads back to it through
    validation: for the metric and the US customary object, validating what
    [name] returns gives a key whose lookup is that same object. Without
    validation it does not for the US customary object, whose [name] is
    "imperial": the lookup of it raises [ValueError]. *)
Theorem name_round_trip
    (w0 w1 : World) (g : Globals) (system : UnitSystem) (w : World) :
  import_module w0 = (inr g, w1) ->
  system = METRIC_SYSTEM g \/ system = US_CUSTOMARY_SYSTEM g ->
  (exists name w' key,
      UnitSystem_name g system w = (inr name, w')
      /\ validate_unit_system name = inr key
      /\ get_unit_system g key w' = (inr system, w'))
  /\ (system = US_CUSTOMARY_SYSTEM g ->
      exists name w',
        UnitSystem_name g system w = (inr name, w')
        /\ get_unit_system g name w'
           = (inl (ValueError "`imperial` is not a valid unit system key"), w'))
  /\ get_unit_system g (_name system) w = (inr system, w).
Proof.
  intros Himport Hsys.
  destruct (import_module_globals _ _ _ Himport) as (Hm & Hu & Hi).
  assert (HnameU : UnitSystem_name g (US_CUSTOMARY_SYSTEM g) w
                   = (inr "imperial", after w (Report name_notice false))).
  { unfold UnitSystem_name, bind, report, emit, ret.
    now rewrite Hi, is_refl. }
  assert (HnameM : UnitSystem_name g (METRIC_SYSTEM g) w
                   = (inr "metric", after w (Report name_notice false))).
  { assert (Hne : is_ (METRIC_SYSTEM g) (IMPERIAL_SYSTEM g) = false).
    { rewrite Hi, Hm, Hu. unfold is_. cbn [oid]. apply Nat.eqb_neq. lia. }
    unfold UnitSystem_name, bind, report, emit, ret.
    rewrite Hne. now rewrite Hm. }
  destruct Hsys as [-> | ->].
  - split; [|split].
    + do 3 eexists. split; [exact HnameM|]. split; reflexivity.
    + intros Heq. exfalso. rewrite Hm, Hu in Heq. injection Heq. lia.
    + replace (_name (METRIC_SYSTEM g)) with "metric" by now rewrite Hm.
      reflexivity.
  - split; [|split].
    + do 3 eexists. split; [exact HnameU|]. split; reflexivity.
    + intros _. do 2 eexists. split; [exact HnameU | reflexivity].
    + replace (_name (US_CUSTOMARY_SYSTEM g)) with "us_customary"
        by now rewrite Hu.
      reflexivity.
Qed.

Lemma name_round_trip_witness :
  import_module initial_world = (inr imported, mkWorld 2 [])
  /\ (US_CUSTOMARY_SYSTEM imported = METRIC_SYSTEM imported
      \/ US_CUSTOMARY_SYSTEM imported = US_CUSTOMARY_SYSTEM imported)
  /\ get_unit_system imported (_name (US_CUSTOMARY_SYSTEM imported)) (mkWorld 2 [])
     = (inr (US_CUSTOMARY_SYSTEM imported), mkWorld 2 []).
Proof.
  split; [exact import_module_initial|].
  split; [right; reflexivity|].
  exact (proj2 (proj2 (name_round_trip initial_world (mkWorld 2 []) imported
                         (US_CUSTOMARY_SYSTEM imported) (mkWorld 2 [])
                         import_module_initial (or_intror eq_refl)))).
Defined.

(** Construction never lowers the identity counter, and the accessors and
    the conversion methods, which only add to the trace, leave it as it is:
    every world reached after the import has a counter at least that of the
    world the import left. *)
Lemma UnitSystem_new_next_id (name t l ws v m p a : string) (w : World) :
  next_id w <= next_id (UnitSystem_new name t l ws v m p a w).2.
Proof.
  unfold UnitSystem_new.
  destruct (UnitSystem___init__ _ _ _ _ _ _ _ _ _); cbn; lia.
Qed.

(** X6. The lookup only ever hands out the two predefined objects: a bundle
    created after the import, in the world the import left or in any later
    one (after other constructions, accessor calls or conversions), whatever
    its name and units, even the name and units of the metric system, is
    never what [get_unit_system] returns; and the name stored in the object
    returned is the key asked for. *)
Theorem custom_system_is_never_found
    (w0 w1 wx w2 : World) (g : Globals) (custom : UnitSystem)
    (name t l ws v m p a : string) (key : string) (w w' : World)
    (found : UnitSystem) :
  import_module w0 = (inr g, w1) ->
  next_id w1 <= next_id wx ->
  UnitSystem_new name t l ws v m p a wx = (inr custom, w2) ->
  get_unit_system g key w = (inr found, w') ->
  is_ found custom = false
  /\ (found = METRIC_SYSTEM g \/ found = US_CUSTOMARY_SYSTEM g)
  /\ _name found = key
  /\ w' = w.
Proof.
  intros Himport Hlater Hnew Hget.
  destruct (import_module_globals _ _ _ Himport) as (Hm & Hu & _).
  rewrite import_module_run in Himport. injection Himport as _ <-.
  cbn [next_id] in Hlater.
  unfold UnitSystem_new in Hnew.
  destruct (UnitSystem___init__ _ _ _ _ _ _ _ _ _) as [e|o] eqn:E; [discriminate|].
  injection Hnew as <- _.
  apply UnitSystem___init___inr in E. destruct E as [_ ->].
  unfold get_unit_system in Hget.
  destruct (String.eqb_spec key _CONF_UNIT_SYSTEM_US_CUSTOMARY) as [->|_].
  - injection Hget as <- <-. rewrite Hu.
    split; [unfold is_; cbn [oid]; apply Nat.eqb_neq; lia|].
    split; [now right|]. split; reflexivity.
  - destruct (String.eqb_spec key _CONF_UNIT_SYSTEM_METRIC) as [->|_];
      [|discriminate].
    injection Hget as <- <-. rewrite Hm.
    split; [unfold is_; cbn [oid]; apply Nat.eqb_neq; lia|].
    split; [now left|]. split; reflexivity.
Qed.

(** A bundle with the name and the units of the metric system, made after
    another construction and one access to [name]. *)
Lemma custom_system_is_never_found_witness :
  import_module initial_world = (inr imported, mkWorld 2 [])
  /\ 2 <= 3
  /\ UnitSystem_new "metric" "°C" "km" "m/s" "L" "g" "Pa" "mm"
       (mkWorld 3 [Report name_notice false])
     = (inr (mkUnitSystem 3 "metric" "mm" "°C" "km" "g" "Pa" "L" "m/s"),
        mkWorld 4 [Report name_notice false])
  /\ get_unit_system imported "metric" (mkWorld 4 [Report name_notice false])
     = (inr (METRIC_SYSTEM imported), mkWorld 4 [Report name_notice false])
  /\ is_ (METRIC_SYSTEM imported)
       (mkUnitSystem 3 "metric" "mm" "°C" "km" "g" "Pa" "L" "m/s") = false.
Proof.
  assert (Hnew : UnitSystem_new "metric" "°C" "km" "m/s" "L" "g" "Pa" "mm"
                   (mkWorld 3 [Report name_notice false])
                 = (inr (mkUnitSystem 3 "metric" "mm" "°C" "km" "g" "Pa" "L" "m/s"),
                    mkWorld 4 [Report name_notice false]))
    by (vm_compute; reflexivity).
  assert (Hget : get_unit_system imported "metric"
                   (mkWorld 4 [Report name_notice false])
                 = (inr (METRIC_SYSTEM imported),
                    mkWorld 4 [Report name_notice false])) by reflexivity.
  assert (Hlater : 2 <= 3) by lia.
  split; [exact import_module_initial|]. split; [exact Hlater|].
  split; [exact Hnew|]. split; [exact Hget|].
  exact (proj1 (custom_system_is_never_found initial_world (mkWorld 2 [])
                  (mkWorld 3 [Report name_notice false])
                  (mkWorld 4 [Report name_notice false]) imported _ _ _ _ _ _
                  _ _ _ "metric" (mkWorld 4 [Report name_notice false])
                  (mkWorld 4 [Report name_notice false]) _
                  import_module_initial Hlater Hnew Hget)).
Defined.

(** X7. The dictionary of a bundle that the constructor returned holds a valid
    unit under every key, and it is enough to build the bundle again: the
    constructor, given the seven entries of the dictionary (and any name),
    succeeds with a new object that has the same dictionary. *)
Theorem as_dict_round_trip
    (w w' : World) (name t l ws v m p a : string) (self : UnitSystem)
    (name' : string) :
  UnitSystem_new name t l ws v m p a w = (inr self, w') ->
  (forall key unit,
      UnitSystem_as_dict self !! key = Some unit ->
      _is_valid_unit unit key = true)
  /\ exists copy,
       UnitSystem_new name'
         (entry (UnitSystem_as_dict self) TEMPERATURE)
         (entry (UnitSystem_as_dict self) LENGTH)
         (entry (UnitSystem_as_dict self) WIND_SPEED)
         (entry (UnitSystem_as_dict self) VOLUME)
         (entry (UnitSystem_as_dict self) MASS)
         (entry (UnitSystem_as_dict self) PRESSURE)
         (entry (UnitSystem_as_dict self) ACCUMULATED_PRECIPITATION) w'
       = (inr copy, mkWorld (S (next_id w')) (trace w'))
       /\ UnitSystem_as_dict copy = UnitSystem_as_dict self
       /\ is_ copy self = false.
Proof.
  intros Hnew. unfold UnitSystem_new in Hnew.
  destruct (UnitSystem___init__ _ _ _ _ _ _ _ _ _) as [e|o] eqn:E; [discriminate|].
  injection Hnew as <- <-.
  apply UnitSystem___init___inr in E. destruct E as [Hvalid ->].
  pose proof Hvalid as (Ht & Hl & Hws & Hv & Hm & Hp & Ha).
  split.
  - intros key unit. unfold UnitSystem_as_dict. cbn [wind_speed_unit volume_unit
      temperature_unit pressure_unit mass_unit accumulated_precipitation_unit
      length_unit].
    repeat (rewrite lookup_insert; case_decide;
            [subst key; intros [= <-]; assumption|]).
    rewrite lookup_empty. discriminate.
  - change (entry (UnitSystem_as_dict (mkUnitSystem (next_id w) name a t l m p v ws))
              TEMPERATURE) with t.
    change (entry (UnitSystem_as_dict (mkUnitSystem (next_id w) name a t l m p v ws))
              LENGTH) with l.
    change (entry (UnitSystem_as_dict (mkUnitSystem (next_id w) name a t l m p v ws))
              WIND_SPEED) with ws.
    change (entry (UnitSystem_as_dict (mkUnitSystem (next_id w) name a t l m p v ws))
              VOLUME) with v.
    change (entry (UnitSystem_as_dict (mkUnitSystem (next_id w) name a t l m p v ws))
              MASS) with m.
    change (entry (UnitSystem_as_dict (mkUnitSystem (next_id w) name a t l m p v ws))
              PRESSURE) with p.
    change (entry (UnitSystem_as_dict (mkUnitSystem (next_id w) name a t l m p v ws))
              ACCUMULATED_PRECIPITATION) with a.
    unfold UnitSystem_new.
    rewrite (UnitSystem___init___valid _ name' _ _ _ _ _ _ _ Hvalid).
    eexists. split; [reflexivity|]. split; [reflexivity|].
    unfold is_. cbn [oid next_id]. apply Nat.eqb_neq. lia.
Qed.

Lemma as_dict_round_trip_witness :
  UnitSystem_new "mine" "K" "m" "kn" "mL" "kg" "bar" "cm" initial_world
  = (inr (mkUnitSystem 0 "mine" "cm" "K" "m" "kg" "bar" "mL" "kn"), mkWorld 1 [])
  /\ _is_valid_unit "kn" WIND_SPEED = true.
Proof.
  assert (Hnew : UnitSystem_new "mine" "K" "m" "kn" "mL" "kg" "bar" "cm"
                   initial_world
                 = (inr (mkUnitSystem 0 "mine" "cm" "K" "m" "kg" "bar" "mL" "kn"),
                    mkWorld 1 [])) by (vm_compute; reflexivity).
  split; [exact Hnew|].
  exact (proj1 (as_dict_round_trip initial_world (mkWorld 1 []) "mine" "K" "m"
                  "kn" "mL" "kg" "bar" "cm" _ "copy" Hnew)
               WIND_SPEED "kn" eq_refl).
Defined.

(** ** Properties of the OVO Energy config flow *)

Section ConfigFlowFacts.

Variable env : Collaborators.

Ltac run_flow H :=
  unfold async_step_user, async_step_reauth, try_except_else, F_bind,
    subscript, F_call, F_lift, may_raise, F_ret, F_raise, get_username,
    set_username, set_title_placeholders in H;
  cbn in H.

(** X8. The user step creates an entry only for credentials the client has
    accepted: when it returns [async_create_entry], a username and a
    password were submitted, [authenticate] answered true for exactly them,
    the unique id was set to the username and was not configured yet, and
    the entry holds those two credentials under its two keys, its title being
    the client's username. *)
Theorem user_entry_requires_authentication
    (user_input : option (gmap string pyval)) (s s' : FlowState)
    (title : pyval) (data : gmap string pyval) :
  async_step_user env user_input s = (inr (async_create_entry title data), s') ->
  exists d u p found,
    user_input = Some d
    /\ d !! CONF_USERNAME env = Some u
    /\ d !! CONF_PASSWORD env = Some p
    /\ authenticate env u p = inr true
    /\ set_unique_id env u = inr found
    /\ abort_if_unique_id_configured env u = None
    /\ title = client_username env u p
    /\ data = credentials env u p
    /\ data !! CONF_PASSWORD env = Some p
    /\ s' = mkFlowState (username s) (title_placeholders s)
              (calls s ++ [NewClient; Authenticate u p; SetUniqueId u;
                           AbortIfUniqueIdConfigured]).
Proof.
  intros H. run_flow H.
  repeat (case_match; simplify_eq/=; unfold F_ret, F_raise in * ).
  do 4 eexists.
  split; [reflexivity|]. split; [eassumption|]. split; [eassumption|].
  split; [eassumption|]. split; [eassumption|]. split; [eassumption|].
  split; [reflexivity|]. split; [reflexivity|].
  split; [unfold credentials; apply lookup_insert_eq|].
  now rewrite <- !app_assoc.
Qed.


(** X9. When the user step shows its form again, nothing was stored for the
    account: the form is the user form, no unique id was set, and either no
    input was given (no error, no call at all) or the client was asked once,
    with the submitted credentials, and the error is "cannot_connect" for a
    client error and "invalid_auth" for a refusal. *)
Theorem user_form_after_failed_login
    (user_input : option (gmap string pyval)) (s s' : FlowState)
    (step_id : string) (schema : Schema) (errors : gmap string string) :
  async_step_user env user_input s
  = (inr (async_show_form step_id schema errors), s') ->
  step_id = "user"
  /\ schema = USER_SCHEMA env
  /\ List.filter sets_unique_id (calls s') = List.filter sets_unique_id (calls s)
  /\ ((user_input = None /\ errors = ∅ /\ s' = s)
      \/ exists d u p,
           user_input = Some d
           /\ d !! CONF_USERNAME env = Some u
           /\ d !! CONF_PASSWORD env = Some p
           /\ s' = mkFlowState (username s) (title_placeholders s)
                     (calls s ++ [NewClient; Authenticate u p])
           /\ ((exists detail,
                   authenticate env u p = inl (ClientError detail)
                   /\ errors = {["base" := "cannot_connect"]})
               \/ (authenticate env u p = inr false
                   /\ errors = {["base" := "invalid_auth"]}))).
Proof.
  intros H. run_flow H.
  repeat (case_match; simplify_eq/=; unfold F_ret, F_raise in * ).
  - split; [reflexivity|]. split; [reflexivity|].
    split; [now rewrite !List.filter_app, !app_nil_r|].
    right. do 3 eexists. split; [reflexivity|].
    split; [eassumption|]. split; [eassumption|].
    split; [now rewrite <- !app_assoc|].
    left. match goal with e : flow_exception |- _ => destruct e; try discriminate end.
    eexists. split; [eassumption | reflexivity].
  - split; [reflexivity|]. split; [reflexivity|].
    split; [now rewrite !List.filter_app, !app_nil_r|].
    right. do 3 eexists. split; [reflexivity|].
    split; [eassumption|]. split; [eassumption|].
    split; [now rewrite <- !app_assoc|].
    right. split; [eassumption | reflexivity].
  - split; [reflexivity|]. split; [reflexivity|]. split; [reflexivity|].
    left. repeat split.
Qed.

(** X10. Input that lacks the username or the password makes the user step
    raise [KeyError] for the first key that is missing; the client has been
    created by then but is never asked to authenticate. *)
Theorem user_input_missing_key (d : gmap string pyval) (s : FlowState) :
  d !! CONF_USERNAME env = None \/ d !! CONF_PASSWORD env = None ->
  exists key,
    async_step_user env (Some d) s
    = (inl (KeyError key),
       mkFlowState (username s) (title_placeholders s) (calls s ++ [NewClient]))
    /\ d !! key = None
    /\ (key = CONF_USERNAME env
        \/ (key = CONF_PASSWORD env /\ is_Some (d !! CONF_USERNAME env))).
Proof.
  intros Hmissing.
  unfold async_step_user, try_except_else, F_bind, subscript, F_call, F_raise.
  cbn.
  destruct (d !! CONF_USERNAME env) as [u|] eqn:Hu.
  - destruct Hmissing as [Hm|Hm]; [discriminate|].
    rewrite Hm. cbn. exists (CONF_PASSWORD env).
    split; [reflexivity|]. split; [exact Hm|]. right. split; [reflexivity | eauto].
  - cbn. exists (CONF_USERNAME env).
    split; [reflexivity|]. split; [exact Hu|]. now left.
Qed.

(** X11. An account that is configured already gets no second entry: when
    the client accepts the credentials but the unique-id check raises, the
    user step raises that same exception, after the four calls up to the
    check, and returns no result. *)
Theorem user_step_abort_propagates
    (d : gmap string pyval) (u p : pyval) (found : option ConfigEntry)
    (e : flow_exception) (s : FlowState) :
  d !! CONF_USERNAME env = Some u ->
  d !! CONF_PASSWORD env = Some p ->
  authenticate env u p = inr true ->
  set_unique_id env u = inr found ->
  abort_if_unique_id_configured env u = Some e ->
  async_step_user env (Some d) s
  = (inl e,
     mkFlowState (username s) (title_placeholders s)
       (calls s ++ [NewClient; Authenticate u p; SetUniqueId u;
                    AbortIfUniqueIdConfigured])).
Proof.
  intros Hu Hp Hauth Hset Habort.
  unfold async_step_user, try_except_else, F_bind, subscript, F_call, F_lift,
    F_ret, F_raise, may_raise.
  cbn. rewrite Hu, Hp. cbn. rewrite Hauth. cbn. rewrite Hset. cbn.
  rewrite Habort. cbn. now rewrite <- !app_assoc.
Qed.

Lemma has_username_lookup (entry_data : option (gmap string pyval)) :
  has_username env entry_data = true ->
  exists d, entry_data = Some d
    /\ d !! CONF_USERNAME env = Some (mapping_get d (CONF_USERNAME env)).
Proof.
  unfold has_username, mapping_get. destruct entry_data as [d|]; [|discriminate].
  intros H. exists d. split; [reflexivity|].
  destruct (d !! CONF_USERNAME env) as [v|]; [reflexivity|].
  apply andb_true_iff in H. destruct H as [_ H]. discriminate H.
Qed.

Lemma has_password_lookup (entry_data : option (gmap string pyval)) :
  has_password env entry_data = true ->
  exists d p, entry_data = Some d /\ d !! CONF_PASSWORD env = Some (Some p).
Proof.
  unfold has_password, mapping_get. destruct entry_data as [d|]; [|discriminate].
  destruct (d !! CONF_PASSWORD env) as [[p|]|] eqn:Hp; intros H;
    try discriminate H.
  exists d, p. split; [reflexivity | exact Hp].
Qed.

Ltac flow_unfold :=
  unfold async_step_user, async_step_reauth, try_except_else, F_bind,
    subscript, F_call, F_lift, may_raise, F_ret, F_raise, get_username,
    set_username, set_title_placeholders.

(** The username the re-auth step works with: the one of the entry data when
    that is not empty, the one the handler had before otherwise. *)
Lemma reauth_username_unfold (entry_data : option (gmap string pyval))
    (s : FlowState) :
  ((if has_username env entry_data
    then F_bind (subscript (default ∅ entry_data) (CONF_USERNAME env)) set_username
    else F_ret tt) s)
  = (inr tt,
     mkFlowState
       (if has_username env entry_data
        then mapping_get (default ∅ entry_data) (CONF_USERNAME env)
        else username s)
       (title_placeholders s) (calls s)).
Proof.
  destruct (has_username env entry_data) eqn:Hhas.
  - destruct (has_username_lookup _ Hhas) as (d & -> & Hd).
    unfold F_bind, subscript. cbn. rewrite Hd. reflexivity.
  - now destruct s.
Qed.

(** X12. Whatever the outcome of the re-auth step, a result or an exception,
    the handler afterwards has as username the one of the entry data when
    that is present and not empty, and its own earlier one otherwise, and the
    title placeholders of its context hold that username. *)
Theorem reauth_keeps_or_takes_username
    (entry_data : option (gmap string pyval)) (s : FlowState) :
  username (async_step_reauth env entry_data s).2
  = (if has_username env entry_data
     then mapping_get (default ∅ entry_data) (CONF_USERNAME env)
     else username s)
  /\ title_placeholders (async_step_reauth env entry_data s).2
     = Some {[CONF_USERNAME env := username (async_step_reauth env entry_data s).2]}.
Proof.
  destruct (has_username env entry_data) eqn:Hhu;
    destruct (has_password env entry_data) eqn:Hhp.
  - destruct (has_username_lookup _ Hhu) as (d & -> & Hd).
    destruct (has_password_lookup _ Hhp) as (d' & p & [= <-] & Hpw).
    flow_unfold. rewrite Hhu, Hhp. cbn. rewrite Hd. cbn. rewrite Hpw. cbn.
    repeat (case_match; simplify_eq/=); split; reflexivity.
  - destruct (has_username_lookup _ Hhu) as (d & -> & Hd).
    flow_unfold. rewrite Hhu, Hhp. cbn. rewrite Hd. cbn. split; reflexivity.
  - destruct (has_password_lookup _ Hhp) as (d' & p & -> & Hpw).
    flow_unfold. rewrite Hhu, Hhp. cbn. rewrite Hpw. cbn.
    repeat (case_match; simplify_eq/=); split; reflexivity.
  - flow_unfold. rewrite Hhu, Hhp. cbn. split; reflexivity.
Qed.

(** X13. The re-auth step never creates an entry. When it returns, it has
    either updated the entry found for the username, with the username and
    the password of the entry data, after the client accepted them, and
    aborts with "reauth_successful"; or it shows the form of the step
    "reauth", with [REAUTH_SCHEMA], without having updated anything: with no error and no call when the entry data
    hold no password, with "connection_error" for a client error and with
    "authorization_error" for a refusal. *)
Theorem reauth_outcomes
    (entry_data : option (gmap string pyval)) (s s' : FlowState)
    (result : FlowResult) :
  async_step_reauth env entry_data s = (inr result, s') ->
  (exists p found,
      result = async_abort "reauth_successful"
      /\ mapping_get (default ∅ entry_data) (CONF_PASSWORD env) = Some p
      /\ authenticate env (username s') (Some p) = inr true
      /\ set_unique_id env (username s') = inr found
      /\ update_entry env found (credentials env (username s') (Some p)) = None
      /\ calls s'
         = app (calls s) [NewClient; Authenticate (username s') (Some p);
                       SetUniqueId (username s');
                       UpdateEntry found (credentials env (username s') (Some p))])
  \/ (exists errors,
      result = async_show_form "reauth" (REAUTH_SCHEMA env) errors
      /\ List.filter updates_entry (calls s') = List.filter updates_entry (calls s)
      /\ ((has_password env entry_data = false /\ errors = ∅ /\ calls s' = calls s)
          \/ exists p,
               mapping_get (default ∅ entry_data) (CONF_PASSWORD env) = Some p
               /\ calls s' = app (calls s) [NewClient; Authenticate (username s') (Some p)]
               /\ ((exists detail,
                       authenticate env (username s') (Some p)
                       = inl (ClientError detail)
                       /\ errors = {["base" := "connection_error"]})
                   \/ (authenticate env (username s') (Some p) = inr false
                       /\ errors = {["base" := "authorization_error"]})))).
Proof.
  intros H.
  assert (Hcases :
    forall name : pyval,
      (if has_password env entry_data then
         F_bind (F_call NewClient) (fun _ =>
           try_except_else
             (F_bind get_username (fun u =>
              F_bind (subscript (default ∅ entry_data) (CONF_PASSWORD env)) (fun p =>
              F_bind (F_call (Authenticate u p)) (fun _ =>
              F_lift (authenticate env u p)))))
             is_ClientError
             (F_ret (async_show_form "reauth" (REAUTH_SCHEMA env)
                       (<["base" := "connection_error"]> ∅)))
             (fun authenticated : bool =>
                if authenticated then
                  F_bind get_username (fun u =>
                  F_bind (F_call (SetUniqueId u)) (fun _ =>
                  F_bind (F_lift (set_unique_id env u)) (fun entry_ =>
                  F_bind get_username (fun u =>
                  F_bind (subscript (default ∅ entry_data) (CONF_PASSWORD env)) (fun p =>
                  F_bind (F_call (UpdateEntry entry_ (credentials env u p))) (fun _ =>
                  F_bind (may_raise (update_entry env entry_ (credentials env u p))) (fun _ =>
                  F_ret (async_abort "reauth_successful"))))))))
                else
                  F_ret (async_show_form "reauth" (REAUTH_SCHEMA env)
                           (<["base" := "authorization_error"]> ∅))))
       else F_ret (async_show_form "reauth" (REAUTH_SCHEMA env) ∅))
        (mkFlowState name (Some {[CONF_USERNAME env := name]}) (calls s))
      = (inr result, s') ->
      (exists p found,
          result = async_abort "reauth_successful"
          /\ mapping_get (default ∅ entry_data) (CONF_PASSWORD env) = Some p
          /\ authenticate env (username s') (Some p) = inr true
          /\ set_unique_id env (username s') = inr found
          /\ update_entry env found (credentials env (username s') (Some p)) = None
          /\ calls s'
             = app (calls s) [NewClient; Authenticate (username s') (Some p);
                           SetUniqueId (username s');
                           UpdateEntry found (credentials env (username s') (Some p))])
      \/ (exists errors,
          result = async_show_form "reauth" (REAUTH_SCHEMA env) errors
          /\ List.filter updates_entry (calls s') = List.filter updates_entry (calls s)
          /\ ((has_password env entry_data = false /\ errors = ∅ /\ calls s' = calls s)
              \/ exists p,
                   mapping_get (default ∅ entry_data) (CONF_PASSWORD env) = Some p
                   /\ calls s' = app (calls s) [NewClient; Authenticate (username s') (Some p)]
                   /\ ((exists detail,
                           authenticate env (username s') (Some p)
                           = inl (ClientError detail)
                           /\ errors = {["base" := "connection_error"]})
                       \/ (authenticate env (username s') (Some p) = inr false
                           /\ errors = {["base" := "authorization_error"]}))))).
  { intros name Hrun.
    destruct (has_password env entry_data) eqn:Hhp.
    - destruct (has_password_lookup _ Hhp) as (d & p & -> & Hpw).
      assert (Hget : mapping_get d (CONF_PASSWORD env) = Some p)
        by (unfold mapping_get; now rewrite Hpw).
      unfold try_except_else, F_bind, subscript, F_call, F_lift, may_raise,
        F_ret, F_raise, get_username in Hrun.
      cbn in Hrun. rewrite Hpw in Hrun. cbn in Hrun.
      destruct (authenticate env name (Some p)) as [e|[|]] eqn:Hauth.
      + destruct e; cbn in Hrun; try discriminate Hrun.
        injection Hrun as <- <-. right. eexists. split; [reflexivity|].
        cbn [calls username].
        split; [now rewrite !List.filter_app, !app_nil_r|].
        right. exists p. split; [exact Hget|].
        split; [now rewrite <- !app_assoc|].
        left. eexists. split; [exact Hauth | reflexivity].
      + cbn in Hrun.
        destruct (set_unique_id env name) as [e|found] eqn:Hset;
          [discriminate Hrun|].
        try rewrite Hpw in Hrun. cbn in Hrun.
        destruct (update_entry env found (credentials env name (Some p)))
          as [e|] eqn:Hupd; [discriminate Hrun|].
        injection Hrun as <- <-. left. exists p, found.
        cbn [calls username].
        split; [reflexivity|]. split; [exact Hget|]. split; [exact Hauth|].
        split; [exact Hset|]. split; [exact Hupd|].
        now rewrite <- !app_assoc.
      + cbn in Hrun. injection Hrun as <- <-. right. eexists.
        split; [reflexivity|]. cbn [calls username].
        split; [now rewrite !List.filter_app, !app_nil_r|].
        right. exists p. split; [exact Hget|].
        split; [now rewrite <- !app_assoc|].
        right. split; [exact Hauth | reflexivity].
    - injection Hrun as <- <-. right. eexists. split; [reflexivity|].
      split; [reflexivity|]. left. repeat split. }
  unfold async_step_reauth in H.
  unfold F_bind at 1 in H. rewrite reauth_username_unfold in H.
  unfold F_bind at 1 in H. unfold set_title_placeholders at 1 in H.
  cbn [username title_placeholders calls] in H.
  exact (Hcases _ H).
Qed.

End ConfigFlowFacts.

(** *** The steps run with the sample collaborators *)

Lemma user_entry_requires_authentication_witness :
  async_step_user sample_collaborators (Some (sample_input "ann" "secret"))
    OVOEnergyFlowHandler___init__
  = (inr (async_create_entry (Some "ann") (sample_input "ann" "secret")),
     mkFlowState None None
       [NewClient; Authenticate (Some "ann") (Some "secret");
        SetUniqueId (Some "ann"); AbortIfUniqueIdConfigured])
  /\ exists d u p found,
       Some (sample_input "ann" "secret") = Some d
       /\ d !! "username" = Some u
       /\ d !! "password" = Some p
       /\ authenticate sample_collaborators u p = inr true
       /\ set_unique_id sample_collaborators u = inr found
       /\ abort_if_unique_id_configured sample_collaborators u = None
       /\ Some "ann" = client_username sample_collaborators u p
       /\ sample_input "ann" "secret" = credentials sample_collaborators u p
       /\ sample_input "ann" "secret" !! "password" = Some p
       /\ mkFlowState None None
            [NewClient; Authenticate (Some "ann") (Some "secret");
             SetUniqueId (Some "ann"); AbortIfUniqueIdConfigured]
          = mkFlowState None None
              ([] ++ [NewClient; Authenticate u p; SetUniqueId u;
                      AbortIfUniqueIdConfigured]).
Proof.
  assert (H : async_step_user sample_collaborators
                (Some (sample_input "ann" "secret")) OVOEnergyFlowHandler___init__
              = (inr (async_create_entry (Some "ann") (sample_input "ann" "secret")),
                 mkFlowState None None
                   [NewClient; Authenticate (Some "ann") (Some "secret");
                    SetUniqueId (Some "ann"); AbortIfUniqueIdConfigured]))
    by (vm_compute; reflexivity).
  split; [exact H|].
  exact (user_entry_requires_authentication sample_collaborators _ _ _ _ _ H).
Defined.

Lemma user_form_after_failed_login_witness :
  async_step_user sample_collaborators (Some (sample_input "ann" "wrong"))
    OVOEnergyFlowHandler___init__
  = (inr (async_show_form "user" ["username"; "password"]
            {["base" := "invalid_auth"]}),
     mkFlowState None None [NewClient; Authenticate (Some "ann") (Some "wrong")])
  /\ List.filter sets_unique_id
       [NewClient; Authenticate (Some "ann") (Some "wrong")]
     = List.filter sets_unique_id [].
Proof.
  assert (H : async_step_user sample_collaborators
                (Some (sample_input "ann" "wrong")) OVOEnergyFlowHandler___init__
              = (inr (async_show_form "user" ["username"; "password"]
                        {["base" := "invalid_auth"]}),
                 mkFlowState None None
                   [NewClient; Authenticate (Some "ann") (Some "wrong")]))
    by (vm_compute; reflexivity).
  split; [exact H|].
  exact (proj1 (proj2 (proj2
           (user_form_after_failed_login sample_collaborators _ _ _ _ _ _ H)))).
Defined.

Lemma user_input_missing_key_witness :
  (({["username" := Some "ann"]} : gmap string (option string)) !! "username" = None
   \/ ({["username" := Some "ann"]} : gmap string (option string)) !! "password" = None)
  /\ exists key,
       async_step_user sample_collaborators (Some {["username" := Some "ann"]})
         OVOEnergyFlowHandler___init__
       = (inl (KeyError key), mkFlowState None None ([] ++ [NewClient]))
       /\ ({["username" := Some "ann"]} : gmap string (option string)) !! key = None
       /\ (key = "username"
           \/ (key = "password"
               /\ is_Some (({["username" := Some "ann"]}
                             : gmap string (option string)) !! "username"))).
Proof.
  assert (H : ({["username" := Some "ann"]} : gmap string (option string))
                !! "username" = None
              \/ ({["username" := Some "ann"]} : gmap string (option string))
                   !! "password" = None)
    by (right; vm_compute; reflexivity).
  split; [exact H|].
  exact (user_input_missing_key sample_collaborators _
           OVOEnergyFlowHandler___init__ H).
Defined.

Lemma user_step_abort_propagates_witness :
  async_step_user sample_collaborators (Some (sample_input "known" "secret"))
    OVOEnergyFlowHandler___init__
  = (inl (AbortFlow "already_configured"),
     mkFlowState None None
       ([] ++ [NewClient; Authenticate (Some "known") (Some "secret");
               SetUniqueId (Some "known"); AbortIfUniqueIdConfigured])).
Proof.
  apply (user_step_abort_propagates sample_collaborators
           (sample_input "known" "secret") (Some "known") (Some "secret")
           (Some (Entry 7)) (AbortFlow "already_configured")
           OVOEnergyFlowHandler___init__);
    vm_compute; reflexivity.
Defined.

(** Three runs of the re-auth step: the account "known", whose entry is
    found and updated; a refused password; a client that cannot be reached. *)
Lemma reauth_outcomes_witness :
  (async_step_reauth sample_collaborators (Some (sample_input "known" "secret"))
     OVOEnergyFlowHandler___init__
   = (inr (async_abort "reauth_successful"),
      mkFlowState (Some "known") (Some {["username" := Some "known"]})
        [NewClient; Authenticate (Some "known") (Some "secret");
         SetUniqueId (Some "known");
         UpdateEntry (Some (Entry 7)) (sample_input "known" "secret")])
   /\ exists p found,
        authenticate sample_collaborators (Some "known") (Some p) = inr true
        /\ set_unique_id sample_collaborators (Some "known") = inr found
        /\ update_entry sample_collaborators found
             (credentials sample_collaborators (Some "known") (Some p)) = None)
  /\ (async_step_reauth sample_collaborators (Some (sample_input "ann" "wrong"))
        OVOEnergyFlowHandler___init__
      = (inr (async_show_form "reauth" ["password"]
                {["base" := "authorization_error"]}),
         mkFlowState (Some "ann") (Some {["username" := Some "ann"]})
           [NewClient; Authenticate (Some "ann") (Some "wrong")])
      /\ exists errors,
           async_show_form "reauth" ["password"] {["base" := "authorization_error"]}
           = async_show_form "reauth" ["password"] errors
           /\ List.filter updates_entry
                [NewClient; Authenticate (Some "ann") (Some "wrong")]
              = List.filter updates_entry [])
  /\ (async_step_reauth sample_collaborators (Some (sample_input "ann" "offline"))
        OVOEnergyFlowHandler___init__
      = (inr (async_show_form "reauth" ["password"]
                {["base" := "connection_error"]}),
         mkFlowState (Some "ann") (Some {["username" := Some "ann"]})
           [NewClient; Authenticate (Some "ann") (Some "offline")])
      /\ exists errors,
           async_show_form "reauth" ["password"] {["base" := "connection_error"]}
           = async_show_form "reauth" ["password"] errors
           /\ List.filter updates_entry
                [NewClient; Authenticate (Some "ann") (Some "offline")]
              = List.filter updates_entry []).
Proof.
  assert (Hknown :
    async_step_reauth sample_collaborators (Some (sample_input "known" "secret"))
      OVOEnergyFlowHandler___init__
    = (inr (async_abort "reauth_successful"),
       mkFlowState (Some "known") (Some {["username" := Some "known"]})
         [NewClient; Authenticate (Some "known") (Some "secret");
          SetUniqueId (Some "known");
          UpdateEntry (Some (Entry 7)) (sample_input "known" "secret")]))
    by (vm_compute; reflexivity).
  assert (Hwrong :
    async_step_reauth sample_collaborators (Some (sample_input "ann" "wrong"))
      OVOEnergyFlowHandler___init__
    = (inr (async_show_form "reauth" ["password"]
              {["base" := "authorization_error"]}),
       mkFlowState (Some "ann") (Some {["username" := Some "ann"]})
         [NewClient; Authenticate (Some "ann") (Some "wrong")]))
    by (vm_compute; reflexivity).
  assert (Hoffline :
    async_step_reauth sample_collaborators (Some (sample_input "ann" "offline"))
      OVOEnergyFlowHandler___init__
    = (inr (async_show_form "reauth" ["password"]
              {["base" := "connection_error"]}),
       mkFlowState (Some "ann") (Some {["username" := Some "ann"]})
         [NewClient; Authenticate (Some "ann") (Some "offline")]))
    by (vm_compute; reflexivity).
  split; [split; [exact Hknown|] | split; [split; [exact Hwrong|] | split; [exact Hoffline|]]].
  - destruct (reauth_outcomes sample_collaborators _ _ _ _ Hknown)
      as [(p & found & _ & _ & Hauth & Hset & Hupd & _) | (errors & Hform & _)].
    + exists p, found. split; [exact Hauth|]. split; [exact Hset | exact Hupd].
    + discriminate Hform.
  - destruct (reauth_outcomes sample_collaborators _ _ _ _ Hwrong)
      as [(p & found & Habort & _) | (errors & Hform & Hkept & _)].
    + discriminate Habort.
    + exists errors. split; [exact Hform | exact Hkept].
  - destruct (reauth_outcomes sample_collaborators _ _ _ _ Hoffline)
      as [(p & found & Habort & _) | (errors & Hform & Hkept & _)].
    + discriminate Habort.
    + exists errors. split; [exact Hform | exact Hkept].
Defined.

(** X14. The user step turns only a client error into a form error: any
    other exception that [authenticate] raises leaves the step as it is,
    after the two calls made so far, with no form shown and no unique id
    set. *)
Theorem user_step_other_exception_propagates
    (env : Collaborators) (d : gmap string pyval) (u p : pyval)
    (e : flow_exception) (s : FlowState) :
  d !! CONF_USERNAME env = Some u ->
  d !! CONF_PASSWORD env = Some p ->
  authenticate env u p = inl e ->
  is_ClientError e = false ->
  async_step_user env (Some d) s
  = (inl e,
     mkFlowState (username s) (title_placeholders s)
       (calls s ++ [NewClient; Authenticate u p])).
Proof.
  intros Hu Hp Hauth Hother.
  unfold async_step_user, try_except_else, F_bind, subscript, F_call, F_lift,
    F_ret, F_raise.
  cbn. rewrite Hu, Hp. cbn. rewrite Hauth, Hother. now rewrite <- !app_assoc.
Qed.

Lemma user_step_other_exception_propagates_witness :
  async_step_user
    (mkCollaborators "username" "password"
       (fun _ _ => inl (OtherError "boom")) (fun u _ => u)
       (fun _ => inr None) (fun _ => None) (fun _ _ => None))
    (Some (sample_input "ann" "secret")) OVOEnergyFlowHandler___init__
  = (inl (OtherError "boom"),
     mkFlowState None None
       ([] ++ [NewClient; Authenticate (Some "ann") (Some "secret")])).
Proof.
  apply (user_step_other_exception_propagates
           (mkCollaborators "username" "password"
              (fun _ _ => inl (OtherError "boom")) (fun u _ => u)
              (fun _ => inr None) (fun _ => None) (fun _ _ => None))
           (sample_input "ann" "secret") (Some "ann") (Some "secret")
           (OtherError "boom") OVOEnergyFlowHandler___init__);
    vm_compute; reflexivity.
Defined.
